(** * glfwDrawQuad: the quad renderer of [projetoGLFW/main.cpp]

    The program is one translation unit: a handful of helpers and a [main]
    that sets up a window, uploads a quad, builds a shader program and then
    draws the quad in a loop until the window is asked to close.

    Everything the program does is a call into GLFW, OpenGL or [std::cout].
    The embedding therefore keeps

    - the calls the program issues, in order, with their arguments
      ([Call], [calls]);
    - the little state of the libraries that the program reads back or that
      a statement of the specification talks about (the close flag, the key
      cache, the registered resize callback, the viewport, the shader and
      program objects);
    - the answers of the outside world ([Env]): what the window system and
      the driver return, and which events arrive at each poll.

    The source functions are state-passing functions over [World]. The
    render loop need not terminate: it is followed for a given number of
    tests of its condition, so that what the program has done so far can
    be stated whether or not it ends. *)

From Stdlib Require Import ZArith QArith List String Ascii Bool Lia
  Permutation.
Import ListNotations.

Close Scope Q_scope.
Open Scope Z_scope.

(* ------------------------------------------------------------------ *)
(** ** C values *)

(** [GLuint] object names, [int] values and pointers are integers; no
    arithmetic is done on them by the program, so no wrap-around arises. *)
Definition GLuint := Z.
Definition GLint := Z.
Definition pointer := Z.
Definition NULL : pointer := 0.

(** [sizeof(float)] and [sizeof(unsigned int)] on the program's target. *)
Definition sizeof_float : Z := 4.
Definition sizeof_unsigned_int : Z := 4.

(** A [float] literal is kept as the decimal number written in the source. *)
Definition float_lit := Q.

(** Text. ["\n"] and ["\0"] as they occur in the string literals. *)
Definition nl : string := String "010"%char EmptyString.
Definition nul : string := String "000"%char EmptyString.

(** What a [const char*] denotes: the characters before the first NUL. *)
Fixpoint c_str (s : string) : string :=
  match s with
  | EmptyString => EmptyString
  | String c rest =>
      if Ascii.eqb c "000"%char then EmptyString else String c (c_str rest)
  end.

(** [contains needle hay]: [needle] occurs in [hay]. *)
Fixpoint contains (needle hay : string) : bool :=
  String.prefix needle hay ||
  match hay with
  | EmptyString => false
  | String _ rest => contains needle rest
  end.

(* ------------------------------------------------------------------ *)
(** ** Library constants used by the program *)

Inductive GLenum : Set :=
| GL_ARRAY_BUFFER | GL_ELEMENT_ARRAY_BUFFER | GL_STATIC_DRAW
| GL_VERTEX_SHADER | GL_FRAGMENT_SHADER
| GL_COMPILE_STATUS | GL_LINK_STATUS
| GL_FLOAT | GL_UNSIGNED_INT
| GL_TRIANGLES
| GL_COLOR_BUFFER_BIT.

Definition GL_FALSE : bool := false.

Inductive GLFWhint : Set :=
| GLFW_CONTEXT_VERSION_MAJOR | GLFW_CONTEXT_VERSION_MINOR | GLFW_OPENGL_PROFILE.

Inductive HintValue : Set :=
| HintInt (n : Z)
| GLFW_OPENGL_CORE_PROFILE.

Inductive Key : Set :=
| GLFW_KEY_ESCAPE
| GLFW_KEY_other (code : Z).

Inductive KeyState : Set := GLFW_RELEASE | GLFW_PRESS.

Definition Key_eqb (a b : Key) : bool :=
  match a, b with
  | GLFW_KEY_ESCAPE, GLFW_KEY_ESCAPE => true
  | GLFW_KEY_other x, GLFW_KEY_other y => Z.eqb x y
  | _, _ => false
  end.

Definition KeyState_eqb (a b : KeyState) : bool :=
  match a, b with
  | GLFW_RELEASE, GLFW_RELEASE | GLFW_PRESS, GLFW_PRESS => true
  | _, _ => false
  end.

(** The callbacks the program defines (there is one). *)
Inductive Callback : Set := cb_frameBufferSize_callback.

(** The data handed to [glBufferData]. *)
Inductive Payload : Set :=
| FloatArray (xs : list float_lit)
| UIntArray (xs : list Z).

(* ------------------------------------------------------------------ *)
(** ** The calls the program can issue *)

Inductive Call : Type :=
(* GLFW *)
| glfwInit
| glfwWindowHint (hint : GLFWhint) (value : HintValue)
| glfwCreateWindow (width height : Z) (title : string)
| glfwTerminate
| glfwSetFramebufferSizeCallback (window : pointer) (cb : Callback)
| glfwMakeContextCurrent (window : pointer)
| gladLoadGL
| glfwWindowShouldClose (window : pointer)
| glfwGetKey (window : pointer) (key : Key)
| glfwSetWindowShouldClose (window : pointer) (value : bool)
| glfwSwapBuffers (window : pointer)
| glfwPollEvents
(* OpenGL *)
| glViewport (x y width height : Z)
| glGenVertexArrays (n : Z)
| glBindVertexArray (array : GLuint)
| glGenBuffers (n : Z)
| glBindBuffer (target : GLenum) (buffer : GLuint)
| glBufferData (target : GLenum) (size : Z) (data : Payload) (usage : GLenum)
| glCreateShader (type : GLenum)
| glShaderSource (shader : GLuint) (count : Z) (source : string)
| glCompileShader (shader : GLuint)
| glGetShaderiv (shader : GLuint) (pname : GLenum)
| glGetShaderInfoLog (shader : GLuint) (bufSize : Z)
| glCreateProgram
| glAttachShader (program shader : GLuint)
| glLinkProgram (program : GLuint)
| glGetProgramiv (program : GLuint) (pname : GLenum)
| glGetProgramInfoLog (program : GLuint) (bufSize : Z)
| glDeleteShader (shader : GLuint)
| glGetAttribLocation (program : GLuint) (name : string)
| glVertexAttribPointer (index : GLuint) (size : GLint) (type : GLenum)
    (normalized : bool) (stride : Z) (offset : pointer)
| glEnableVertexAttribArray (index : GLuint)
| glClearColor (red green blue alpha : float_lit)
| glClear (mask : GLenum)
| glUseProgram (program : GLuint)
| glDrawElements (mode : GLenum) (count : Z) (type : GLenum) (offset : pointer)
| glDeleteVertexArrays (n : Z) (array : GLuint)
| glDeleteBuffers (n : Z) (buffer : GLuint)
| glDeleteProgram (program : GLuint)
(* std::cout *)
| cout (text : string).

(* ------------------------------------------------------------------ *)
(** ** The outside world *)

(** What [glfwPollEvents] can deliver to this program. *)
Inductive Event : Set :=
| EvKey (key : Key) (state : KeyState)
| EvFramebufferSize (width height : Z)
| EvWindowClose.

Record ShaderObj : Set := mkShader {
  sh_type : GLenum;
  sh_source : string;
  sh_compiled : bool;
  sh_infoLog : string
}.

Record ProgramObj : Set := mkProgram {
  pr_attached : list GLuint;
  pr_linked : bool;
  pr_infoLog : string
}.

Record Env : Type := mkEnv {
  (** the pointer [glfwCreateWindow] returns; [NULL] on failure *)
  env_window : pointer;
  (** the object name the driver returns at its k-th creation call *)
  env_name : nat -> GLuint;
  (** the driver's compiler: stage, source |-> status and info log *)
  env_compile : GLenum -> string -> bool * string;
  (** the driver's linker, on the attached shader objects *)
  env_link : list (option ShaderObj) -> bool * string;
  (** the answer of [glGetAttribLocation] *)
  env_attrib : GLuint -> string -> GLint;
  (** the events delivered by the k-th [glfwPollEvents] *)
  env_events : nat -> list Event;
  (** what an [int] and a [char[512]] hold when no one wrote them *)
  env_indet_int : Z;
  env_indet_log : string
}.

Record World : Type := mkWorld {
  w_shouldClose : bool;              (* the window's close flag *)
  w_keys : Key -> KeyState;          (* last reported state of each key *)
  w_fbcb : option Callback;          (* framebuffer-size callback *)
  w_viewport : option (Z * Z * Z * Z);
  w_shaders : list (GLuint * ShaderObj);
  w_programs : list (GLuint * ProgramObj);
  w_names : nat;                     (* creation calls answered so far *)
  w_polls : nat                      (* polls answered so far *)
}.

Definition initial_world : World :=
  mkWorld false (fun _ => GLFW_RELEASE) None None [] [] 0 0.

Definition set_shouldClose (b : bool) (w : World) : World :=
  mkWorld b (w_keys w) (w_fbcb w) (w_viewport w)
          (w_shaders w) (w_programs w) (w_names w) (w_polls w).
Definition set_keys (k : Key -> KeyState) (w : World) : World :=
  mkWorld (w_shouldClose w) k (w_fbcb w) (w_viewport w)
          (w_shaders w) (w_programs w) (w_names w) (w_polls w).
Definition set_fbcb (c : option Callback) (w : World) : World :=
  mkWorld (w_shouldClose w) (w_keys w) c (w_viewport w)
          (w_shaders w) (w_programs w) (w_names w) (w_polls w).
Definition set_viewport (v : option (Z * Z * Z * Z)) (w : World) : World :=
  mkWorld (w_shouldClose w) (w_keys w) (w_fbcb w) v
          (w_shaders w) (w_programs w) (w_names w) (w_polls w).
Definition set_shaders (s : list (GLuint * ShaderObj)) (w : World) : World :=
  mkWorld (w_shouldClose w) (w_keys w) (w_fbcb w) (w_viewport w)
          s (w_programs w) (w_names w) (w_polls w).
Definition set_programs (p : list (GLuint * ProgramObj)) (w : World) : World :=
  mkWorld (w_shouldClose w) (w_keys w) (w_fbcb w) (w_viewport w)
          (w_shaders w) p (w_names w) (w_polls w).
Definition set_names (n : nat) (w : World) : World :=
  mkWorld (w_shouldClose w) (w_keys w) (w_fbcb w) (w_viewport w)
          (w_shaders w) (w_programs w) n (w_polls w).
Definition set_polls (n : nat) (w : World) : World :=
  mkWorld (w_shouldClose w) (w_keys w) (w_fbcb w) (w_viewport w)
          (w_shaders w) (w_programs w) (w_names w) n.

(** Object tables, keyed by object name. *)
Fixpoint lookup {A : Type} (k : GLuint) (l : list (GLuint * A)) : option A :=
  match l with
  | [] => None
  | (k', v) :: rest => if Z.eqb k k' then Some v else lookup k rest
  end.

Fixpoint remove_key {A : Type} (k : GLuint) (l : list (GLuint * A))
  : list (GLuint * A) :=
  match l with
  | [] => []
  | (k', v) :: rest =>
      if Z.eqb k k' then remove_key k rest else (k', v) :: remove_key k rest
  end.

Definition store {A : Type} (k : GLuint) (v : A) (l : list (GLuint * A))
  : list (GLuint * A) :=
  (k, v) :: remove_key k l.

(** Change the object named [k], if there is one. *)
Definition update {A : Type} (k : GLuint) (f : A -> A)
    (l : list (GLuint * A)) : list (GLuint * A) :=
  match lookup k l with
  | Some v => store k (f v) l
  | None => l
  end.

(* ------------------------------------------------------------------ *)
(** ** The monad of the program: state, and the calls issued *)

Record Out (A : Type) : Type := mkOut {
  value : A;              (* the result *)
  world : World;          (* the world afterwards *)
  calls : list Call       (* the calls issued, oldest first *)
}.

Arguments mkOut {A} value world calls.
Arguments value {A} o.
Arguments world {A} o.
Arguments calls {A} o.

Definition M (A : Type) : Type := World -> Out A.

Definition ret {A : Type} (a : A) : M A := fun w => mkOut a w [].
Definition bind {A B : Type} (m : M A) (k : A -> M B) : M B :=
  fun w =>
    let r1 := m w in
    let r2 := k (value r1) (world r1) in
    mkOut (value r2) (world r2) (calls r1 ++ calls r2).

Declare Scope prog_scope.
Delimit Scope prog_scope with prog.
Notation "x <- m ;; k" := (bind m (fun x => k))
  (at level 61, m at next level, right associativity) : prog_scope.
Notation "m ;; k" := (bind m (fun _ => k))
  (at level 61, right associativity) : prog_scope.
Open Scope prog_scope.

(** Issue a call. *)
Definition emit (c : Call) : M unit := fun w => mkOut tt w [c].
Definition get {A : Type} (f : World -> A) : M A := fun w => mkOut (f w) w [].
Definition modify (f : World -> World) : M unit := fun w => mkOut tt (f w) [].

(* ------------------------------------------------------------------ *)
(** ** OpenGL, as far as the program observes it *)

Module GL.
Section Driver.
Variable env : Env.

(** The driver hands out the next object name. *)
Definition fresh : M GLuint :=
  k <- get w_names ;;
  modify (set_names (S k)) ;;
  ret (env_name env k).

Definition glViewport (x y width height : Z) : M unit :=
  emit (glViewport x y width height) ;;
  modify (set_viewport (Some (x, y, width, height))).

(** [glGenVertexArrays(1, &a)] and [glGenBuffers(1, &b)]: the program
    only ever asks for one name, which is the result. *)
Definition glGenVertexArrays (n : Z) : M GLuint :=
  emit (glGenVertexArrays n) ;; fresh.
Definition glGenBuffers (n : Z) : M GLuint :=
  emit (glGenBuffers n) ;; fresh.

Definition glBindVertexArray (array : GLuint) : M unit :=
  emit (glBindVertexArray array).
Definition glBindBuffer (target : GLenum) (buffer : GLuint) : M unit :=
  emit (glBindBuffer target buffer).
Definition glBufferData (target : GLenum) (size : Z) (data : Payload)
    (usage : GLenum) : M unit :=
  emit (glBufferData target size data usage).

Definition glCreateShader (type : GLenum) : M GLuint :=
  emit (glCreateShader type) ;;
  name <- fresh ;;
  modify (fun w =>
    set_shaders
      (store name (mkShader type EmptyString false EmptyString)
         (w_shaders w)) w) ;;
  ret name.

(** [glShaderSource(shader, 1, &source, NULL)]: with a NULL length array
    the string is read up to its terminating NUL. *)
Definition glShaderSource (shader : GLuint) (count : Z) (source : string)
  : M unit :=
  emit (glShaderSource shader count (c_str source)) ;;
  modify (fun w =>
    set_shaders
      (update shader
         (fun o => mkShader (sh_type o) (c_str source)
                            (sh_compiled o) (sh_infoLog o))
         (w_shaders w)) w).

Definition glCompileShader (shader : GLuint) : M unit :=
  emit (glCompileShader shader) ;;
  modify (fun w =>
    set_shaders
      (update shader
         (fun o =>
            let (status, log) := env_compile env (sh_type o) (sh_source o) in
            mkShader (sh_type o) (sh_source o) status log)
         (w_shaders w)) w).

(** The queries write through a pointer; [None] is "nothing written"
    (the name is not an object of the right kind). *)
Definition glGetShaderiv (shader : GLuint) (pname : GLenum)
  : M (option Z) :=
  emit (glGetShaderiv shader pname) ;;
  o <- get (fun w => lookup shader (w_shaders w)) ;;
  ret (match o, pname with
       | Some o, GL_COMPILE_STATUS => Some (if sh_compiled o then 1 else 0)
       | _, _ => None
       end).

(** At most [bufSize - 1] characters and the terminating NUL. *)
Definition glGetShaderInfoLog (shader : GLuint) (bufSize : Z)
  : M (option string) :=
  emit (glGetShaderInfoLog shader bufSize) ;;
  o <- get (fun w => lookup shader (w_shaders w)) ;;
  ret (match o with
       | Some o =>
           Some (String.substring 0 (Z.to_nat (bufSize - 1)) (sh_infoLog o))
       | None => None
       end).

Definition glCreateProgram : M GLuint :=
  emit glCreateProgram ;;
  name <- fresh ;;
  modify (fun w =>
    set_programs
      (store name (mkProgram [] false EmptyString) (w_programs w)) w) ;;
  ret name.

Definition glAttachShader (program shader : GLuint) : M unit :=
  emit (glAttachShader program shader) ;;
  modify (fun w =>
    set_programs
      (update program
         (fun p => mkProgram (pr_attached p ++ [shader])
                             (pr_linked p) (pr_infoLog p))
         (w_programs w)) w).

Definition glLinkProgram (program : GLuint) : M unit :=
  emit (glLinkProgram program) ;;
  modify (fun w =>
    set_programs
      (update program
         (fun p =>
            let (status, log) :=
              env_link env
                (map (fun s => lookup s (w_shaders w)) (pr_attached p)) in
            mkProgram (pr_attached p) status log)
         (w_programs w)) w).

Definition glGetProgramiv (program : GLuint) (pname : GLenum)
  : M (option Z) :=
  emit (glGetProgramiv program pname) ;;
  p <- get (fun w => lookup program (w_programs w)) ;;
  ret (match p, pname with
       | Some p, GL_LINK_STATUS => Some (if pr_linked p then 1 else 0)
       | _, _ => None
       end).

Definition glGetProgramInfoLog (program : GLuint) (bufSize : Z)
  : M (option string) :=
  emit (glGetProgramInfoLog program bufSize) ;;
  p <- get (fun w => lookup program (w_programs w)) ;;
  ret (match p with
       | Some p =>
           Some (String.substring 0 (Z.to_nat (bufSize - 1)) (pr_infoLog p))
       | None => None
       end).

(** Deleting is recorded in the calls only: the tables above keep the
    compile and link results, which is all the program reads back. *)
Definition glDeleteShader (shader : GLuint) : M unit :=
  emit (glDeleteShader shader).

Definition glGetAttribLocation (program : GLuint) (name : string)
  : M GLint :=
  emit (glGetAttribLocation program name) ;;
  ret (env_attrib env program name).

Definition glVertexAttribPointer (index : GLuint) (size : GLint)
    (type : GLenum) (normalized : bool) (stride : Z) (offset : pointer)
  : M unit :=
  emit (glVertexAttribPointer index size type normalized stride offset).
Definition glEnableVertexAttribArray (index : GLuint) : M unit :=
  emit (glEnableVertexAttribArray index).

Definition glClearColor (red green blue alpha : float_lit) : M unit :=
  emit (glClearColor red green blue alpha).
Definition glClear (mask : GLenum) : M unit := emit (glClear mask).
Definition glUseProgram (program : GLuint) : M unit :=
  emit (glUseProgram program).
Definition glDrawElements (mode : GLenum) (count : Z) (type : GLenum)
    (offset : pointer) : M unit :=
  emit (glDrawElements mode count type offset).

Definition glDeleteVertexArrays (n : Z) (array : GLuint) : M unit :=
  emit (glDeleteVertexArrays n array).
Definition glDeleteBuffers (n : Z) (buffer : GLuint) : M unit :=
  emit (glDeleteBuffers n buffer).
Definition glDeleteProgram (program : GLuint) : M unit :=
  emit (glDeleteProgram program).
End Driver.
End GL.

(** [std::cout << ... << std::endl], one statement at a time. *)
Definition std_cout (text : string) : M unit := emit (cout text).

(* ------------------------------------------------------------------ *)
(** ** The source: helpers and data (main.cpp, lines 6-80) *)

(** [frameBufferSize_callback] (lines 12-14). *)
Definition frameBufferSize_callback (window : pointer) (width height : Z)
  : M unit :=
  GL.glViewport 0 0 width height.

Definition run_callback (cb : Callback) (window : pointer) (width height : Z)
  : M unit :=
  match cb with
  | cb_frameBufferSize_callback => frameBufferSize_callback window width height
  end.

(* ------------------------------------------------------------------ *)
(** ** GLFW, as far as the program observes it *)

Module GLFW.
Section WindowSystem.
Variable env : Env.

Definition glfwInit : M unit := emit glfwInit.
Definition glfwWindowHint (hint : GLFWhint) (value : HintValue) : M unit :=
  emit (glfwWindowHint hint value).
Definition glfwCreateWindow (width height : Z) (title : string)
  : M pointer :=
  emit (glfwCreateWindow width height title) ;;
  ret (env_window env).
Definition glfwTerminate : M unit := emit glfwTerminate.
Definition glfwSetFramebufferSizeCallback (window : pointer) (cb : Callback)
  : M unit :=
  emit (glfwSetFramebufferSizeCallback window cb) ;;
  modify (set_fbcb (Some cb)).
Definition glfwMakeContextCurrent (window : pointer) : M unit :=
  emit (glfwMakeContextCurrent window).
Definition gladLoadGL : M unit := emit gladLoadGL.

Definition glfwWindowShouldClose (window : pointer) : M bool :=
  emit (glfwWindowShouldClose window) ;;
  get w_shouldClose.
Definition glfwGetKey (window : pointer) (key : Key) : M KeyState :=
  emit (glfwGetKey window key) ;;
  get (fun w => w_keys w key).
Definition glfwSetWindowShouldClose (window : pointer) (value : bool)
  : M unit :=
  emit (glfwSetWindowShouldClose window value) ;;
  modify (set_shouldClose value).
Definition glfwSwapBuffers (window : pointer) : M unit :=
  emit (glfwSwapBuffers window).

(** One event reaches the window: the key cache is updated, the close
    flag is raised, or the registered callback runs. *)
Definition deliver (window : pointer) (e : Event) : M unit :=
  match e with
  | EvKey key state =>
      modify (fun w =>
        set_keys (fun k => if Key_eqb k key then state else w_keys w k) w)
  | EvFramebufferSize width height =>
      cb <- get w_fbcb ;;
      match cb with
      | Some cb => run_callback cb window width height
      | None => ret tt
      end
  | EvWindowClose => modify (set_shouldClose true)
  end.

Fixpoint deliver_all (window : pointer) (es : list Event) : M unit :=
  match es with
  | [] => ret tt
  | e :: rest => deliver window e ;; deliver_all window rest
  end.

Definition glfwPollEvents : M unit :=
  emit glfwPollEvents ;;
  k <- get w_polls ;;
  modify (set_polls (S k)) ;;
  deliver_all (env_window env) (env_events env k).
End WindowSystem.
End GLFW.

(* ------------------------------------------------------------------ *)
(** ** The source, continued *)

(** Lines 16-25: the global arrays. *)
Definition triangleVertices : list float_lit :=
  [ 0.5%Q;  0.5%Q; 0.0%Q;     (* top right *)
    0.5%Q; (-0.5)%Q; 0.0%Q;   (* bottom right *)
    (-0.5)%Q; (-0.5)%Q; 0.0%Q; (* bottom left *)
    (-0.5)%Q;  0.5%Q; 0.0%Q ]. (* top left *)

Definition indices : list Z :=
  [ 0; 1; 3;    (* first triangle *)
    1; 2; 3 ].  (* second triangle *)

(** [sizeof] of the two arrays. *)
Definition sizeof_triangleVertices : Z :=
  Z.of_nat (List.length triangleVertices) * sizeof_float.
Definition sizeof_indices : Z :=
  Z.of_nat (List.length indices) * sizeof_unsigned_int.

Section Program.
Variable env : Env.

(** [processInput] (lines 6-10). *)
Definition processInput (window : pointer) : M unit :=
  k <- GLFW.glfwGetKey window GLFW_KEY_ESCAPE ;;
  if KeyState_eqb k GLFW_PRESS
  then GLFW.glfwSetWindowShouldClose window true
  else ret tt.

(** [checkIfShaderRunSucessfully] (lines 27-37). [success] and
    [infoLog] are uninitialised locals that the queries write. *)
Definition checkIfShaderRunSucessfully (shader : GLuint) : M unit :=
  r <- GL.glGetShaderiv shader GL_COMPILE_STATUS ;;
  let success := match r with Some v => v | None => env_indet_int env end in
  if Z.eqb success 0 then
    l <- GL.glGetShaderInfoLog shader 512 ;;
    let infoLog :=
      match l with Some s => s | None => env_indet_log env end in
    std_cout ("ERROR::SHADER::VERTEX::COMPILATION_FAILED" ++ nl
              ++ c_str infoLog ++ nl)%string
  else ret tt.

(** [checkIfProgramWasCreatedSucessfully] (lines 39-49). *)
Definition checkIfProgramWasCreatedSucessfully (shaderProgram : GLuint)
  : M unit :=
  r <- GL.glGetProgramiv shaderProgram GL_LINK_STATUS ;;
  let success := match r with Some v => v | None => env_indet_int env end in
  if Z.eqb success 0 then
    l <- GL.glGetProgramInfoLog shaderProgram 512 ;;
    let infoLog :=
      match l with Some s => s | None => env_indet_log env end in
    std_cout (nl ++ "(Shader PROGRAM Error.) "
              ++ "ERROR::SHADER::VERTEX::COMPILATION_FAILED" ++ nl
              ++ c_str infoLog ++ nl)%string
  else ret tt.

(** The two string literals (lines 54-59 and 69-74), with the explicit
    ["\0"] they end in. *)
Definition vertexSource : string :=
  ("#version 330 core" ++ nl ++
   "layout (location = 0) in vec3 aPos;" ++ nl ++
   "void main()" ++ nl ++
   "{" ++ nl ++
   "   gl_Position = vec4(aPos, 1.0);" ++ nl ++
   "}" ++ nul)%string.

Definition fragmentSource : string :=
  ("#version 330 core" ++ nl ++
   "out vec4 FragColor;" ++ nl ++
   "void main()" ++ nl ++
   "{" ++ nl ++
   "   FragColor = vec4(1.0f, 0.5f, 0.2f, 1.0f);" ++ nl ++
   "}" ++ nul)%string.

(** [createVertexShader] (lines 52-65). *)
Definition createVertexShader (vertexShader : GLuint) : M unit :=
  GL.glShaderSource vertexShader 1 vertexSource ;;
  GL.glCompileShader env vertexShader ;;
  checkIfShaderRunSucessfully vertexShader.

(** [createFragmentShader] (lines 67-80); its local is called
    [vertexShaderSource] in the source and holds the fragment text. *)
Definition createFragmentShader (fragmentShader : GLuint) : M unit :=
  GL.glShaderSource fragmentShader 1 fragmentSource ;;
  GL.glCompileShader env fragmentShader ;;
  checkIfShaderRunSucessfully fragmentShader.

(** The objects [main] keeps in locals across the loop. *)
Record Locals : Set := mkLocals {
  window : pointer;
  VAO : GLuint;
  VBO : GLuint;
  EBO : GLuint;
  shaderProgram : GLuint
}.

Definition WIDTH : Z := 800.
Definition HEIGHT : Z := 600.

(** [main], lines 84-171: everything before the loop. The result is
    [inl code] when [main] returns early with [code]. *)
Definition main_setup : M (Z + Locals) :=
  GLFW.glfwInit ;;
  GLFW.glfwWindowHint GLFW_CONTEXT_VERSION_MAJOR (HintInt 3) ;;
  GLFW.glfwWindowHint GLFW_CONTEXT_VERSION_MINOR (HintInt 3) ;;
  GLFW.glfwWindowHint GLFW_OPENGL_PROFILE GLFW_OPENGL_CORE_PROFILE ;;
  window <- GLFW.glfwCreateWindow env WIDTH HEIGHT
              "Aprendendo OpenGL/GLFW" ;;
  if Z.eqb window NULL then
    std_cout ("Failed to create GLFW window" ++ nl)%string ;;
    GLFW.glfwTerminate ;;
    ret (inl (-1))
  else
    GLFW.glfwSetFramebufferSizeCallback window cb_frameBufferSize_callback ;;
    GLFW.glfwMakeContextCurrent window ;;
    GLFW.gladLoadGL ;;
    (* the vertex array object *)
    VAO <- GL.glGenVertexArrays env 1 ;;
    GL.glBindVertexArray VAO ;;
    (* the vertex buffer *)
    VBO <- GL.glGenBuffers env 1 ;;
    GL.glBindBuffer GL_ARRAY_BUFFER VBO ;;
    GL.glBufferData GL_ARRAY_BUFFER sizeof_triangleVertices
      (FloatArray triangleVertices) GL_STATIC_DRAW ;;
    (* the element buffer *)
    EBO <- GL.glGenBuffers env 1 ;;
    GL.glBindBuffer GL_ELEMENT_ARRAY_BUFFER EBO ;;
    GL.glBufferData GL_ELEMENT_ARRAY_BUFFER sizeof_indices
      (UIntArray indices) GL_STATIC_DRAW ;;
    (* the shaders *)
    vertexShader <- GL.glCreateShader env GL_VERTEX_SHADER ;;
    fragmentShader <- GL.glCreateShader env GL_FRAGMENT_SHADER ;;
    createVertexShader vertexShader ;;
    createFragmentShader fragmentShader ;;
    (* the program *)
    shaderProgram <- GL.glCreateProgram env ;;
    GL.glAttachShader shaderProgram vertexShader ;;
    GL.glAttachShader shaderProgram fragmentShader ;;
    GL.glLinkProgram env shaderProgram ;;
    checkIfProgramWasCreatedSucessfully shaderProgram ;;
    GL.glDeleteShader vertexShader ;;
    GL.glDeleteShader fragmentShader ;;
    (* vertex attributes *)
    posAttrib <- GL.glGetAttribLocation env shaderProgram "aPos" ;;
    GL.glVertexAttribPointer 0 3 GL_FLOAT GL_FALSE (3 * sizeof_float) 0 ;;
    GL.glEnableVertexAttribArray 0 ;;
    ret (inr (mkLocals window VAO VBO EBO shaderProgram)).

(** Lines 177-186: clearing the screen and drawing the quad. *)
Definition frame_render (l : Locals) : M unit :=
  GL.glClearColor 0.2%Q 0.3%Q 0.3%Q 1.0%Q ;;
  GL.glClear GL_COLOR_BUFFER_BIT ;;
  GL.glUseProgram (shaderProgram l) ;;
  GL.glBindVertexArray (VAO l) ;;
  GL.glDrawElements GL_TRIANGLES 6 GL_UNSIGNED_INT 0 ;;
  GL.glBindVertexArray 0.

(** Lines 175-189: the body of the [while]. *)
Definition loop_body (l : Locals) : M unit :=
  processInput (window l) ;;
  frame_render l ;;
  GLFW.glfwSwapBuffers (window l) ;;
  GLFW.glfwPollEvents env.

(** Lines 174-190: [while (!glfwWindowShouldClose(window)) body]. The
    loop runs as long as the window system lets it. [render_loop fuel]
    follows it for at most [fuel] tests of the condition; its value
    tells whether the loop has ended by then. *)
Fixpoint render_loop (fuel : nat) (l : Locals) (w : World) : Out bool :=
  match fuel with
  | O => mkOut false w []
  | S fuel' =>
      let c := GLFW.glfwWindowShouldClose (window l) w in
      if value c then mkOut true (world c) (calls c)
      else
        let b := loop_body l (world c) in
        let r := render_loop fuel' l (world b) in
        mkOut (value r) (world r) (calls c ++ calls b ++ calls r)
  end.

(** Lines 192-197: after the loop. *)
Definition main_teardown (l : Locals) : M Z :=
  GL.glDeleteVertexArrays 1 (VAO l) ;;
  GL.glDeleteBuffers 1 (VBO l) ;;
  GL.glDeleteBuffers 1 (EBO l) ;;
  GL.glDeleteProgram (shaderProgram l) ;;
  GLFW.glfwTerminate ;;
  ret 0.

(** [main] (lines 83-198), followed for [fuel] tests of the loop
    condition: the calls issued so far, and the return value once [main]
    has returned. *)
Definition main (fuel : nat) : M (option Z) :=
  fun w =>
    let s := main_setup w in
    match value s with
    | inl code => mkOut (Some code) (world s) (calls s)
    | inr l =>
        let r := render_loop fuel l (world s) in
        if value r then
          let t := main_teardown l (world r) in
          mkOut (Some (value t)) (world t) (calls s ++ calls r ++ calls t)
        else mkOut None (world r) (calls s ++ calls r)
    end.
End Program.

(** A run of the program from the moment the process starts. *)
Definition run (env : Env) (fuel : nat) : Out (option Z) :=
  main env fuel initial_world.

(** What the run wrote to [std::cout]. *)
Fixpoint log_stream (cs : list Call) : string :=
  match cs with
  | [] => EmptyString
  | cout text :: rest => (text ++ log_stream rest)%string
  | _ :: rest => log_stream rest
  end.

(* ------------------------------------------------------------------ *)
(** ** Reading a trace *)

(** Calls that make the driver hand out a new object name. *)
Definition is_creation_call (c : Call) : bool :=
  match c with
  | glGenVertexArrays _ | glGenBuffers _ | glCreateShader _
  | glCreateProgram => true
  | _ => false
  end.

(** Calls that give an object back to the driver. *)
Definition is_release_call (c : Call) : bool :=
  match c with
  | glDeleteVertexArrays _ _ | glDeleteBuffers _ _ | glDeleteProgram _
  | glDeleteShader _ => true
  | _ => false
  end.

Definition is_draw_call (c : Call) : bool :=
  match c with glDrawElements _ _ _ _ => true | _ => false end.

Definition is_upload_call (c : Call) : bool :=
  match c with glBufferData _ _ _ _ => true | _ => false end.

Definition is_viewport_call (c : Call) : bool :=
  match c with glViewport _ _ _ _ => true | _ => false end.

Definition is_attrib_call (c : Call) : bool :=
  match c with
  | glVertexAttribPointer _ _ _ _ _ _ | glEnableVertexAttribArray _ => true
  | _ => false
  end.

Definition is_createWindow_call (c : Call) : bool :=
  match c with glfwCreateWindow _ _ _ => true | _ => false end.

(** Status queries and what is written to the log. *)
Definition is_diagnostic (c : Call) : bool :=
  match c with
  | glGetShaderiv _ _ | glGetShaderInfoLog _ _
  | glGetProgramiv _ _ | glGetProgramInfoLog _ _ | cout _ => true
  | _ => false
  end.

(** Calls into OpenGL, as opposed to GLFW, the loader and the log. *)
Definition is_gl_call (c : Call) : bool :=
  match c with
  | glfwInit | glfwWindowHint _ _ | glfwCreateWindow _ _ _ | glfwTerminate
  | glfwSetFramebufferSizeCallback _ _ | glfwMakeContextCurrent _
  | gladLoadGL | glfwWindowShouldClose _ | glfwGetKey _ _
  | glfwSetWindowShouldClose _ _ | glfwSwapBuffers _ | glfwPollEvents
  | cout _ => false
  | _ => true
  end.

(** The vertices of a position array and the triangles of an index array. *)
Fixpoint vertices_of (xs : list float_lit)
  : list (float_lit * float_lit * float_lit) :=
  match xs with
  | x :: y :: z :: rest => (x, y, z) :: vertices_of rest
  | _ => []
  end.

Fixpoint triangles_of (ix : list Z) : list (Z * Z * Z) :=
  match ix with
  | a :: b :: c :: rest => (a, b, c) :: triangles_of rest
  | _ => []
  end.

Definition corners (t : Z * Z * Z) : list Z :=
  let '(a, b, c) := t in [a; b; c].

(** The indices two triangles have in common. *)
Definition shared_corners (s t : Z * Z * Z) : list Z :=
  filter (fun i => existsb (Z.eqb i) (corners t)) (corners s).

(** The [glViewport] calls the resize handler makes for the events of one
    poll. *)
Fixpoint resize_calls (es : list Event) : list Call :=
  match es with
  | [] => []
  | EvFramebufferSize width height :: rest =>
      glViewport 0 0 width height :: resize_calls rest
  | _ :: rest => resize_calls rest
  end.

Definition is_resize (e : Event) : bool :=
  match e with EvFramebufferSize _ _ => true | _ => false end.

(** The calls of one drawn frame (the specification's render step). *)
Definition render_calls (l : Locals) : list Call :=
  [ glClearColor 0.2%Q 0.3%Q 0.3%Q 1.0%Q;
    glClear GL_COLOR_BUFFER_BIT;
    glUseProgram (shaderProgram l);
    glBindVertexArray (VAO l);
    glDrawElements GL_TRIANGLES 6 GL_UNSIGNED_INT 0;
    glBindVertexArray 0 ].

(** The calls of the input check of one iteration. *)
Definition input_calls (l : Locals) (pressed : bool) : list Call :=
  glfwGetKey (window l) GLFW_KEY_ESCAPE ::
  (if pressed then [glfwSetWindowShouldClose (window l) true] else []).

(** The shape of what the loop issues: iterations, and then either the
    test that ends it ([true]) or nothing yet ([false]). *)
Inductive loop_trace (l : Locals) : bool -> list Call -> Prop :=
| loop_running :
    loop_trace l false []
| loop_exit :
    loop_trace l true [glfwWindowShouldClose (window l)]
| loop_iter : forall ended pressed es rest,
    loop_trace l ended rest ->
    loop_trace l ended
      (glfwWindowShouldClose (window l) ::
       input_calls l pressed ++ render_calls l ++
       glfwSwapBuffers (window l) :: glfwPollEvents ::
       resize_calls es ++ rest).

(** The calls of [main] after the loop. *)
Definition teardown_calls (l : Locals) : list Call :=
  [ glDeleteVertexArrays 1 (VAO l);
    glDeleteBuffers 1 (VBO l);
    glDeleteBuffers 1 (EBO l);
    glDeleteProgram (shaderProgram l);
    glfwTerminate ].

(** The calls of [main] before the loop when the window exists; [d1],
    [d2] and [d3] are what the three status checks issue. *)
Definition setup_calls (l : Locals) (vertexShader fragmentShader : GLuint)
    (d1 d2 d3 : list Call) : list Call :=
  [ glfwInit;
    glfwWindowHint GLFW_CONTEXT_VERSION_MAJOR (HintInt 3);
    glfwWindowHint GLFW_CONTEXT_VERSION_MINOR (HintInt 3);
    glfwWindowHint GLFW_OPENGL_PROFILE GLFW_OPENGL_CORE_PROFILE;
    glfwCreateWindow 800 600 "Aprendendo OpenGL/GLFW";
    glfwSetFramebufferSizeCallback (window l) cb_frameBufferSize_callback;
    glfwMakeContextCurrent (window l);
    gladLoadGL;
    glGenVertexArrays 1;
    glBindVertexArray (VAO l);
    glGenBuffers 1;
    glBindBuffer GL_ARRAY_BUFFER (VBO l);
    glBufferData GL_ARRAY_BUFFER 48 (FloatArray triangleVertices)
      GL_STATIC_DRAW;
    glGenBuffers 1;
    glBindBuffer GL_ELEMENT_ARRAY_BUFFER (EBO l);
    glBufferData GL_ELEMENT_ARRAY_BUFFER 24 (UIntArray indices)
      GL_STATIC_DRAW;
    glCreateShader GL_VERTEX_SHADER;
    glCreateShader GL_FRAGMENT_SHADER;
    glShaderSource vertexShader 1 (c_str vertexSource);
    glCompileShader vertexShader ] ++ d1 ++
  [ glShaderSource fragmentShader 1 (c_str fragmentSource);
    glCompileShader fragmentShader ] ++ d2 ++
  [ glCreateProgram;
    glAttachShader (shaderProgram l) vertexShader;
    glAttachShader (shaderProgram l) fragmentShader;
    glLinkProgram (shaderProgram l) ] ++ d3 ++
  [ glDeleteShader vertexShader;
    glDeleteShader fragmentShader;
    glGetAttribLocation (shaderProgram l) "aPos";
    glVertexAttribPointer 0 3 GL_FLOAT false 12 0;
    glEnableVertexAttribArray 0 ].

(** The worlds in which the loop condition is tested during a run. *)
Inductive loop_head (env : Env) (l : Locals) : World -> Prop :=
| head_first :
    value (main_setup env initial_world) = inr l ->
    loop_head env l (world (main_setup env initial_world))
| head_next : forall w,
    loop_head env l w ->
    w_shouldClose w = false ->
    loop_head env l (world (loop_body env l w)).

(** Environments used to run the program on concrete inputs. *)
Definition no_log : string := EmptyString.

(** A driver that accepts everything; the window closes at the poll
    [close_at]. *)
Definition env_ok (close_at : nat) : Env :=
  mkEnv 77 (fun k => Z.of_nat k + 1)
    (fun _ _ => (true, no_log))
    (fun _ => (true, no_log))
    (fun _ _ => 0)
    (fun k => if Nat.eqb k close_at then [EvWindowClose] else [])
    0 no_log.

(** No window can be created. *)
Definition env_no_window : Env :=
  mkEnv NULL (fun k => Z.of_nat k + 1)
    (fun _ _ => (true, no_log))
    (fun _ => (true, no_log))
    (fun _ _ => 0)
    (fun _ => [])
    0 no_log.

(** The driver rejects the fragment shader; the user presses Escape,
    which the first poll reports. *)
Definition env_fragment_fails : Env :=
  mkEnv 77 (fun k => Z.of_nat k + 1)
    (fun type _ =>
       match type with
       | GL_FRAGMENT_SHADER => (false, "0(5) : error C0000: syntax error"%string)
       | _ => (true, no_log)
       end)
    (fun _ => (false, "error: linking with uncompiled shader"%string))
    (fun _ _ => 0)
    (fun k => match k with
              | O => [EvKey GLFW_KEY_ESCAPE GLFW_PRESS]
              | _ => []
              end)
    0 no_log.

(** The window is resized twice, then Escape is pressed. *)
Definition env_resized : Env :=
  mkEnv 77 (fun k => Z.of_nat k + 1)
    (fun _ _ => (true, no_log))
    (fun _ => (true, no_log))
    (fun _ _ => 0)
    (fun k => match k with
              | 1%nat => [EvFramebufferSize 1024 768;
                          EvFramebufferSize 640 480]
              | 2%nat => [EvKey GLFW_KEY_ESCAPE GLFW_PRESS]
              | _ => []
              end)
    0 no_log.

(** The locals of [main] once the setup is done, from a world [w]: the
    window, and the first, second, third and sixth name the driver hands
    out. The fourth and fifth are the two shader objects. *)
Definition setup_locals (env : Env) (w : World) : Locals :=
  mkLocals (env_window env)
    (env_name env (w_names w)) (env_name env (1 + w_names w))
    (env_name env (2 + w_names w))
    (env_name env (5 + w_names w)).

Definition setup_vertexShader (env : Env) (w : World) : GLuint :=
  env_name env (3 + w_names w).
Definition setup_fragmentShader (env : Env) (w : World) : GLuint :=
  env_name env (4 + w_names w).

(** [post m w Q]: running [m] in [w] ends with a result, a world and
    calls that satisfy [Q]. *)
Definition post {A : Type} (m : M A) (w : World)
    (Q : A -> World -> list Call -> Prop) : Prop :=
  Q (value (m w)) (world (m w)) (calls (m w)).

Definition is_close (e : Event) : bool :=
  match e with EvWindowClose => true | _ => false end.

(** What the loop can issue. *)
Definition is_loop_call (c : Call) : bool :=
  match c with
  | glfwWindowShouldClose _ | glfwGetKey _ _ | glfwSetWindowShouldClose _ _
  | glfwSwapBuffers _ | glfwPollEvents | glViewport _ _ _ _
  | glClearColor _ _ _ _ | glClear _ | glUseProgram _ | glBindVertexArray _
  | glDrawElements _ _ _ _ => true
  | _ => false
  end.

(** The input check sees Escape pressed. *)
Definition escape_pressed (w : World) : bool :=
  KeyState_eqb (w_keys w GLFW_KEY_ESCAPE) GLFW_PRESS.

(** The world after the input check, and when the poll starts to
    deliver its events. *)
Definition after_input (w : World) : World :=
  if escape_pressed w then set_shouldClose true w else w.
Definition at_poll (w : World) : World :=
  set_polls (S (w_polls w)) (after_input w).

(* ------------------------------------------------------------------ *)
(** ** Reading more of a run *)







(** The state of Escape after the events of a poll, from state [s]. *)
Fixpoint escape_after (s : KeyState) (es : list Event) : KeyState :=
  match es with
  | [] => s
  | EvKey GLFW_KEY_ESCAPE state :: rest => escape_after state rest
  | _ :: rest => escape_after s rest
  end.

(** A poll that neither asks to close nor leaves Escape pressed. *)
Definition calm (es : list Event) : bool :=
  negb (existsb is_close es) &&
  KeyState_eqb (escape_after GLFW_RELEASE es) GLFW_RELEASE.

Definition is_swap_call (c : Call) : bool :=
  match c with glfwSwapBuffers _ => true | _ => false end.

Definition is_poll_call (c : Call) : bool :=
  match c with glfwPollEvents => true | _ => false end.


(** The one draw call of the program. *)
Definition the_draw : Call :=
  glDrawElements GL_TRIANGLES 6 GL_UNSIGNED_INT 0.

(** Escape goes down and up again within the first poll, then another
    key is pressed, then the window is resized. *)
Definition env_busy : Env :=
  mkEnv 77 (fun k => Z.of_nat k + 1)
    (fun _ _ => (true, no_log))
    (fun _ => (true, no_log))
    (fun _ _ => 0)
    (fun k => match k with
              | 0%nat => [EvKey GLFW_KEY_ESCAPE GLFW_PRESS;
                          EvKey GLFW_KEY_ESCAPE GLFW_RELEASE]
              | 1%nat => [EvKey (GLFW_KEY_other 65) GLFW_PRESS]
              | 2%nat => [EvFramebufferSize 320 200]
              | _ => []
              end)
    0 no_log.

(* ------------------------------------------------------------------ *)
(** ** What a draw call reads *)




















(* ------------------------------------------------------------------ *)
(** * Properties *)

(** ** The monad and the library models *)

Lemma calls_bind {A B : Type} (m : M A) (k : A -> M B) (w : World) :
  calls (bind m k w) = calls (m w) ++ calls (k (value (m w)) (world (m w))).
Proof. reflexivity. Qed.

Lemma world_bind {A B : Type} (m : M A) (k : A -> M B) (w : World) :
  world (bind m k w) = world (k (value (m w)) (world (m w))).
Proof. reflexivity. Qed.

Lemma value_bind {A B : Type} (m : M A) (k : A -> M B) (w : World) :
  value (bind m k w) = value (k (value (m w)) (world (m w))).
Proof. reflexivity. Qed.

Lemma lookup_store {A : Type} (k : GLuint) (v : A) (l : list (GLuint * A)) :
  lookup k (store k v l) = Some v.
Proof. unfold store; simpl. now rewrite Z.eqb_refl. Qed.

Lemma calls_mk {A : Type} (a : A) w c : calls (mkOut a w c) = c.
Proof. reflexivity. Qed.

Lemma value_mk {A : Type} (a : A) w c : value (mkOut a w c) = a.
Proof. reflexivity. Qed.

Lemma Some_eq {A : Type} (x y : A) : Some x = Some y -> x = y.
Proof. congruence. Qed.

Lemma filter_none_forallb {A : Type} (p q : A -> bool) (l : list A) :
  (forall x, q x = true -> p x = false) ->
  forallb q l = true -> filter p l = [].
Proof.
  intros Hpq; induction l as [|x l IH]; simpl; intros H; [reflexivity|].
  apply andb_true_iff in H as [Hx Hl].
  rewrite (Hpq x Hx). now apply IH.
Qed.

(** ** Stepping through straight-line code *)

Lemma post_bind {A B : Type} (m : M A) (k : A -> M B) w Q :
  post m w (fun a w1 c1 => post (k a) w1 (fun b w2 c2 => Q b w2 (c1 ++ c2))) ->
  post (bind m k) w Q.
Proof. exact (fun H => H). Qed.

Lemma post_check_shader env s w (Q : unit -> World -> list Call -> Prop) :
  (forall d, forallb is_diagnostic d = true -> Q tt w d) ->
  post (checkIfShaderRunSucessfully env s) w Q.
Proof.
  intros H. unfold post, checkIfShaderRunSucessfully.
  rewrite calls_bind, world_bind, value_bind.
  destruct (Z.eqb _ 0); apply H; reflexivity.
Qed.

Lemma post_check_program env p w (Q : unit -> World -> list Call -> Prop) :
  (forall d, forallb is_diagnostic d = true -> Q tt w d) ->
  post (checkIfProgramWasCreatedSucessfully env p) w Q.
Proof.
  intros H. unfold post, checkIfProgramWasCreatedSucessfully.
  rewrite calls_bind, world_bind, value_bind.
  destruct (Z.eqb _ 0); apply H; reflexivity.
Qed.

Lemma post_emit c w (Q : unit -> World -> list Call -> Prop) :
  Q tt w [c] -> post (emit c) w Q.
Proof. exact (fun H => H). Qed.

Lemma post_get {A : Type} (f : World -> A) w Q :
  Q (f w) w [] -> post (get f) w Q.
Proof. exact (fun H => H). Qed.

Lemma post_modify f w (Q : unit -> World -> list Call -> Prop) :
  Q tt (f w) [] -> post (modify f) w Q.
Proof. exact (fun H => H). Qed.

Lemma post_ret {A : Type} (a : A) w Q :
  Q a w [] -> post (ret a) w Q.
Proof. exact (fun H => H). Qed.

Ltac tidy :=
  cbv beta;
  cbn [set_shouldClose set_keys set_fbcb set_viewport set_shaders
       set_programs set_names set_polls
       w_shouldClose w_keys w_fbcb w_viewport w_shaders w_programs
       w_names w_polls app].

Ltac head_of t :=
  lazymatch t with
  | ?f _ => head_of f
  | _ => t
  end.

Ltac step :=
  lazymatch goal with
  | |- post (if _ then _ else _) _ _ => fail
  | |- post (checkIfShaderRunSucessfully _ _) _ _ =>
      apply post_check_shader; intros ? ?
  | |- post (checkIfProgramWasCreatedSucessfully _ _) _ _ =>
      apply post_check_program; intros ? ?
  | |- post (emit _) _ _ => apply post_emit; tidy
  | |- post (get _) _ _ => apply post_get; tidy
  | |- post (modify _) _ _ => apply post_modify; tidy
  | |- post (ret _) _ _ => apply post_ret; tidy
  | |- post (bind _ _) _ _ => apply post_bind
  | |- post ?m _ _ => let h := head_of m in unfold h
  end.

Lemma main_setup_post env w :
  env_window env <> NULL ->
  post (main_setup env) w (fun r w' cs =>
    exists d1 d2 d3,
      let l := setup_locals env w in
      r = inr l /\
      cs = setup_calls l (setup_vertexShader env w)
             (setup_fragmentShader env w) d1 d2 d3 /\
      forallb is_diagnostic d1 = true /\
      forallb is_diagnostic d2 = true /\
      forallb is_diagnostic d3 = true /\
      w_fbcb w' = Some cb_frameBufferSize_callback /\
      w_shouldClose w' = w_shouldClose w /\
      w_polls w' = w_polls w).
Proof.
  intros Hw. apply Z.eqb_neq in Hw.
  unfold main_setup.
  repeat step. rewrite Hw. repeat step.
  match goal with
  | H1 : forallb is_diagnostic ?a = true,
    H2 : forallb is_diagnostic ?b = true,
    H3 : forallb is_diagnostic ?c = true |- _ =>
      solve [exists a, b, c; repeat split; first [assumption | reflexivity]]
  end.
Qed.

Lemma main_setup_no_window env w :
  env_window env = NULL ->
  value (main_setup env w) = inl (-1) /\
  calls (main_setup env w) =
    [ glfwInit;
      glfwWindowHint GLFW_CONTEXT_VERSION_MAJOR (HintInt 3);
      glfwWindowHint GLFW_CONTEXT_VERSION_MINOR (HintInt 3);
      glfwWindowHint GLFW_OPENGL_PROFILE GLFW_OPENGL_CORE_PROFILE;
      glfwCreateWindow 800 600 "Aprendendo OpenGL/GLFW";
      cout ("Failed to create GLFW window" ++ nl)%string;
      glfwTerminate ].
Proof.
  intros Hw.
  change (post (main_setup env) w (fun r _ cs =>
    r = inl (-1) /\
    cs = [ glfwInit;
           glfwWindowHint GLFW_CONTEXT_VERSION_MAJOR (HintInt 3);
           glfwWindowHint GLFW_CONTEXT_VERSION_MINOR (HintInt 3);
           glfwWindowHint GLFW_OPENGL_PROFILE GLFW_OPENGL_CORE_PROFILE;
           glfwCreateWindow 800 600 "Aprendendo OpenGL/GLFW";
           cout ("Failed to create GLFW window" ++ nl)%string;
           glfwTerminate ])).
  unfold main_setup.
  repeat step. rewrite Hw. simpl (NULL =? NULL). cbv iota. repeat step.
  split; reflexivity.
Qed.

(** ** One iteration of the loop *)

Lemma processInput_spec l w :
  calls (processInput (window l) w) = input_calls l (escape_pressed w) /\
  world (processInput (window l) w) = after_input w.
Proof.
  unfold processInput, after_input, input_calls, escape_pressed.
  rewrite calls_bind, world_bind. simpl.
  destruct (KeyState_eqb (w_keys w GLFW_KEY_ESCAPE) GLFW_PRESS);
    split; reflexivity.
Qed.

Lemma frame_render_spec l w :
  calls (frame_render l w) = render_calls l /\ world (frame_render l w) = w.
Proof. split; reflexivity. Qed.

Lemma deliver_all_spec win es : forall w,
  calls (GLFW.deliver_all win es w) =
    match w_fbcb w with Some _ => resize_calls es | None => [] end /\
  w_fbcb (world (GLFW.deliver_all win es w)) = w_fbcb w /\
  w_polls (world (GLFW.deliver_all win es w)) = w_polls w /\
  w_shouldClose (world (GLFW.deliver_all win es w)) =
    w_shouldClose w || existsb is_close es.
Proof.
  induction es as [|e es IH]; intros w.
  - simpl. rewrite orb_false_r. destruct (w_fbcb w); repeat split.
  - cbn [GLFW.deliver_all].
    rewrite calls_bind, world_bind.
    destruct (IH (world (GLFW.deliver win e w))) as (Hc & Hf & Hp & Hs).
    rewrite Hc, Hf, Hp, Hs. clear IH Hc Hf Hp Hs.
    destruct e as [key state|width height|]; simpl.
    + destruct (w_fbcb w); repeat split.
    + destruct (w_fbcb w) as [[]|] eqn:E; simpl; rewrite ?E; repeat split.
    + rewrite orb_true_r. destruct (w_fbcb w); repeat split.
Qed.

Lemma deliver_all_app win es1 es2 w :
  world (GLFW.deliver_all win (es1 ++ es2) w) =
  world (GLFW.deliver_all win es2 (world (GLFW.deliver_all win es1 w))).
Proof.
  revert w; induction es1 as [|e es1 IH]; intros w; [reflexivity|].
  simpl app. cbn [GLFW.deliver_all]. rewrite !world_bind. apply IH.
Qed.

Lemma deliver_all_keeps_viewport win es : forall w,
  forallb (fun e => negb (is_resize e)) es = true ->
  w_viewport (world (GLFW.deliver_all win es w)) = w_viewport w.
Proof.
  induction es as [|e es IH]; intros w H; [reflexivity|].
  simpl in H. apply andb_true_iff in H as [He Hes].
  cbn [GLFW.deliver_all]. rewrite world_bind, (IH _ Hes).
  destruct e; [reflexivity|discriminate|reflexivity].
Qed.

Lemma loop_body_spec env l w :
  calls (loop_body env l w) =
    input_calls l (escape_pressed w) ++ render_calls l ++
    glfwSwapBuffers (window l) :: glfwPollEvents ::
    calls (GLFW.deliver_all (env_window env) (env_events env (w_polls w))
             (at_poll w)) /\
  world (loop_body env l w) =
    world (GLFW.deliver_all (env_window env) (env_events env (w_polls w))
             (at_poll w)).
Proof.
  unfold loop_body.
  rewrite calls_bind, world_bind.
  destruct (processInput_spec l w) as [Hc Hw]. rewrite Hc, Hw.
  assert (Hp : w_polls (after_input w) = w_polls w)
    by (unfold after_input; destruct (escape_pressed w); reflexivity).
  unfold at_poll. rewrite <- Hp.
  split; reflexivity.
Qed.

Lemma after_input_fields w :
  w_fbcb (after_input w) = w_fbcb w /\
  w_polls (after_input w) = w_polls w /\
  w_viewport (after_input w) = w_viewport w /\
  w_shouldClose (after_input w) = w_shouldClose w || escape_pressed w.
Proof.
  unfold after_input. destruct (escape_pressed w); simpl;
    rewrite ?orb_true_r, ?orb_false_r; repeat split.
Qed.

(** What an iteration leaves behind. *)
Lemma loop_body_world env l w :
  w_fbcb (world (loop_body env l w)) = w_fbcb w /\
  w_polls (world (loop_body env l w)) = S (w_polls w) /\
  w_shouldClose (world (loop_body env l w)) =
    w_shouldClose w || escape_pressed w
    || existsb is_close (env_events env (w_polls w)).
Proof.
  destruct (loop_body_spec env l w) as [_ Hw]. rewrite Hw.
  destruct (deliver_all_spec (env_window env) (env_events env (w_polls w))
              (at_poll w)) as (_ & Hf & Hp & Hs).
  destruct (after_input_fields w) as (Af & Ap & _ & As).
  rewrite Hf, Hp, Hs. unfold at_poll; simpl.
  rewrite Af, As. repeat split.
Qed.

(** The calls of an iteration, with the resize handler's calls last. *)
Lemma loop_body_calls env l w :
  exists es,
    calls (loop_body env l w) =
      input_calls l (escape_pressed w) ++ render_calls l ++
      glfwSwapBuffers (window l) :: glfwPollEvents :: resize_calls es /\
    (w_fbcb w = Some cb_frameBufferSize_callback ->
     es = env_events env (w_polls w)).
Proof.
  destruct (loop_body_spec env l w) as [Hc _]. rewrite Hc.
  destruct (deliver_all_spec (env_window env) (env_events env (w_polls w))
              (at_poll w)) as (Hd & _).
  rewrite Hd.
  assert (Hf : w_fbcb (at_poll w) = w_fbcb w)
    by (unfold at_poll; simpl; apply after_input_fields).
  rewrite Hf.
  destruct (w_fbcb w) as [cb|].
  - exists (env_events env (w_polls w)). split; reflexivity.
  - exists []. split; [reflexivity|discriminate].
Qed.

Lemma resize_calls_viewport es : forallb is_viewport_call (resize_calls es) = true.
Proof. induction es as [|[]]; simpl; auto. Qed.

Lemma resize_calls_loop es : forallb is_loop_call (resize_calls es) = true.
Proof. induction es as [|[]]; simpl; auto. Qed.

Lemma resize_calls_app es1 es2 :
  resize_calls (es1 ++ es2) = resize_calls es1 ++ resize_calls es2.
Proof.
  induction es1 as [|[] es1 IH]; simpl; rewrite ?IH; reflexivity.
Qed.

(** ** The loop *)

Lemma render_loop_step env l fuel w :
  render_loop env (S fuel) l w =
    if w_shouldClose w
    then mkOut true w [glfwWindowShouldClose (window l)]
    else
      mkOut (value (render_loop env fuel l (world (loop_body env l w))))
            (world (render_loop env fuel l (world (loop_body env l w))))
            (glfwWindowShouldClose (window l) ::
             calls (loop_body env l w) ++
             calls (render_loop env fuel l (world (loop_body env l w)))).
Proof. reflexivity. Qed.

Lemma render_loop_trace env l : forall fuel w,
  loop_trace l (value (render_loop env fuel l w))
             (calls (render_loop env fuel l w)).
Proof.
  induction fuel as [|fuel IH]; intros w; [apply loop_running|].
  rewrite render_loop_step.
  destruct (w_shouldClose w); [apply loop_exit|].
  rewrite value_mk, calls_mk.
  destruct (loop_body_calls env l w) as (es & Hc & _).
  rewrite Hc, <- !app_assoc, <- !app_comm_cons.
  apply loop_iter, IH.
Qed.

Lemma loop_trace_calls l ended cs :
  loop_trace l ended cs -> forallb is_loop_call cs = true.
Proof.
  induction 1 as [| |ended pressed es rest _ IH]; try reflexivity.
  cbn [forallb is_loop_call andb].
  rewrite !forallb_app. cbn [forallb is_loop_call andb].
  rewrite forallb_app, IH, resize_calls_loop.
  destruct pressed; reflexivity.
Qed.

(** Once the loop has ended, following it further changes nothing. *)
Lemma render_loop_more_fuel env l : forall fuel fuel' w,
  value (render_loop env fuel l w) = true -> (fuel <= fuel')%nat ->
  render_loop env fuel' l w = render_loop env fuel l w.
Proof.
  induction fuel as [|fuel IH]; intros fuel' w H Hle; [discriminate|].
  destruct fuel' as [|fuel']; [lia|].
  rewrite !render_loop_step in *.
  destruct (w_shouldClose w); [reflexivity|].
  rewrite value_mk in H.
  rewrite (IH fuel' _ H); [reflexivity|lia].
Qed.

(** If the window system reports a close request at some poll, the loop
    ends: it needs at most one test per poll up to that one, and one
    more. *)
Lemma render_loop_closes env l : forall n w,
  existsb is_close (env_events env (w_polls w + n)) = true ->
  value (render_loop env (n + 2) l w) = true.
Proof.
  induction n as [|n IH]; intros w Hclose.
  - rewrite Nat.add_0_r in Hclose.
    cbn [Nat.add]. rewrite render_loop_step.
    destruct (w_shouldClose w); [reflexivity|].
    rewrite value_mk, render_loop_step.
    destruct (loop_body_world env l w) as (_ & _ & Hs).
    rewrite Hs, Hclose, orb_true_r. reflexivity.
  - cbn [Nat.add]. rewrite render_loop_step.
    destruct (w_shouldClose w); [reflexivity|].
    rewrite value_mk.
    destruct (loop_body_world env l w) as (_ & Hp & _).
    apply IH. rewrite Hp.
    replace (S (w_polls w) + n)%nat with (w_polls w + S n)%nat by lia.
    exact Hclose.
Qed.

(** ** Whole runs *)

Lemma main_teardown_spec l w :
  calls (main_teardown l w) = teardown_calls l /\
  value (main_teardown l w) = 0.
Proof. split; reflexivity. Qed.

Lemma run_no_window env fuel :
  env_window env = NULL ->
  value (run env fuel) = Some (-1) /\
  calls (run env fuel) =
    [ glfwInit;
      glfwWindowHint GLFW_CONTEXT_VERSION_MAJOR (HintInt 3);
      glfwWindowHint GLFW_CONTEXT_VERSION_MINOR (HintInt 3);
      glfwWindowHint GLFW_OPENGL_PROFILE GLFW_OPENGL_CORE_PROFILE;
      glfwCreateWindow 800 600 "Aprendendo OpenGL/GLFW";
      cout ("Failed to create GLFW window" ++ nl)%string;
      glfwTerminate ].
Proof.
  intros Hw.
  destruct (main_setup_no_window env initial_world Hw) as [Hv Hc].
  unfold run, main. rewrite Hv. split; [reflexivity|exact Hc].
Qed.

(** A run that has a window: the setup, the loop as far as it was
    followed, and the teardown once the loop has ended. *)
Lemma run_shape env fuel :
  env_window env <> NULL ->
  exists (d1 d2 d3 body : list Call) (ended : bool),
    calls (run env fuel) =
      setup_calls (setup_locals env initial_world)
        (setup_vertexShader env initial_world)
        (setup_fragmentShader env initial_world) d1 d2 d3
      ++ body ++
      (if ended then teardown_calls (setup_locals env initial_world)
       else []) /\
    value (run env fuel) = (if ended then Some 0 else None) /\
    forallb is_diagnostic d1 = true /\
    forallb is_diagnostic d2 = true /\
    forallb is_diagnostic d3 = true /\
    loop_trace (setup_locals env initial_world) ended body.
Proof.
  intros Hw.
  destruct (main_setup_post env initial_world Hw)
    as (d1 & d2 & d3 & Hv & Hc & H1 & H2 & H3 & _).
  cbv beta zeta in Hv, Hc.
  pose proof (render_loop_trace env (setup_locals env initial_world) fuel
                (world (main_setup env initial_world))) as Hb.
  unfold run, main. rewrite Hv.
  exists d1, d2, d3.
  exists (calls (render_loop env fuel (setup_locals env initial_world)
                   (world (main_setup env initial_world)))).
  exists (value (render_loop env fuel (setup_locals env initial_world)
                   (world (main_setup env initial_world)))).
  cbv zeta.
  destruct (value (render_loop env fuel _ _));
    rewrite calls_mk, value_mk, Hc;
    rewrite ?app_nil_r; repeat split; first [assumption | reflexivity].
Qed.

Lemma run_terminates env k :
  env_window env <> NULL ->
  In EvWindowClose (env_events env k) ->
  forall fuel, (k + 2 <= fuel)%nat -> value (run env fuel) = Some 0.
Proof.
  intros Hw Hin fuel Hfuel.
  destruct (main_setup_post env initial_world Hw)
    as (d1 & d2 & d3 & Hv & _ & _ & _ & _ & _ & _ & Hp).
  cbv beta zeta in Hv.
  assert (Hb : value (render_loop env (k + 2)
                        (setup_locals env initial_world)
                        (world (main_setup env initial_world))) = true).
  { apply render_loop_closes. rewrite Hp. simpl. apply existsb_exists.
    exists EvWindowClose. split; [exact Hin|reflexivity]. }
  unfold run, main. rewrite Hv. cbv zeta.
  rewrite (render_loop_more_fuel env _ _ fuel _ Hb Hfuel), Hb.
  reflexivity.
Qed.

(** What a run with a window issues, seen through a filter that lets
    neither the status checks nor the loop through. *)
Lemma run_filter (p : Call -> bool) env fuel :
  (forall c, is_diagnostic c = true -> p c = false) ->
  (forall c, is_loop_call c = true -> p c = false) ->
  env_window env <> NULL ->
  filter p (calls (run env fuel)) =
    filter p (setup_calls (setup_locals env initial_world)
                (setup_vertexShader env initial_world)
                (setup_fragmentShader env initial_world) [] [] [])
    ++ match value (run env fuel) with
       | Some _ => filter p (teardown_calls (setup_locals env initial_world))
       | None => []
       end.
Proof.
  intros Hd Hl Hw.
  destruct (run_shape env fuel Hw)
    as (d1 & d2 & d3 & body & ended & Hc & Hv & H1 & H2 & H3 & Hb).
  rewrite Hc, Hv. unfold setup_calls.
  rewrite !filter_app.
  rewrite (filter_none_forallb p is_diagnostic d1 Hd H1).
  rewrite (filter_none_forallb p is_diagnostic d2 Hd H2).
  rewrite (filter_none_forallb p is_diagnostic d3 Hd H3).
  rewrite (filter_none_forallb p is_loop_call body Hl
             (loop_trace_calls _ _ _ Hb)).
  destruct ended; reflexivity.
Qed.

Lemma loop_body_filter (p : Call -> bool) env l w :
  (forall c, is_loop_call c = true -> p c = false) ->
  filter p (calls (loop_body env l w)) = [].
Proof.
  intros Hl.
  destruct (loop_body_calls env l w) as (es & Hc & _). rewrite Hc.
  apply (filter_none_forallb p is_loop_call _ Hl).
  rewrite !forallb_app. cbn [forallb is_loop_call andb].
  rewrite resize_calls_loop. destruct (escape_pressed w); reflexivity.
Qed.

(* ------------------------------------------------------------------ *)
(** * The statements of the specification *)

(** ** Drawing a frame *)

(** C2. Each iteration of the loop draws the frame with the same six
    calls in the same order, whatever the world it runs in: the clear
    colour (0.2, 0.3, 0.3, 1.0) is set and the colour buffer cleared, the
    program is made current, the vertex array is bound, six indices of
    type unsigned int are drawn as triangles, the vertex array is unbound.
    The step changes nothing else. No other OpenGL call is made in the
    iteration before the buffers are swapped; after the swap and the poll
    only the resize handler's viewport calls can follow. *)
Theorem frame_render_sequence (env : Env) (l : Locals) (w : World) :
  calls (frame_render l (after_input w)) =
    [ glClearColor 0.2%Q 0.3%Q 0.3%Q 1.0%Q;
      glClear GL_COLOR_BUFFER_BIT;
      glUseProgram (shaderProgram l);
      glBindVertexArray (VAO l);
      glDrawElements GL_TRIANGLES 6 GL_UNSIGNED_INT 0;
      glBindVertexArray 0 ] /\
  world (frame_render l (after_input w)) = after_input w /\
  exists pre post,
    calls (loop_body env l w) =
      pre ++ calls (frame_render l (after_input w)) ++
      glfwSwapBuffers (window l) :: glfwPollEvents :: post /\
    filter is_gl_call pre = [] /\
    forallb is_viewport_call post = true.
Proof.
  split; [reflexivity|]. split; [reflexivity|].
  destruct (loop_body_calls env l w) as (es & Hc & _).
  exists (input_calls l (escape_pressed w)), (resize_calls es).
  split; [exact Hc|]. split.
  - destruct (escape_pressed w); reflexivity.
  - apply resize_calls_viewport.
Qed.

(** ** The geometry *)

(** C3. However long a run with a window is followed, it has uploaded
    data exactly twice, before the loop: twelve floats, the four corners
    (0.5,0.5,0), (0.5,-0.5,0), (-0.5,-0.5,0), (-0.5,0.5,0), as the array
    buffer, and the six indices 0,1,3,1,2,3 as the element buffer. The
    two triangles (0,1,3) and (1,2,3) have the vertices 1 and 3 in
    common, which the vertex data holds once. *)
Theorem quad_geometry_upload (env : Env) (fuel : nat) :
  env_window env <> NULL ->
  filter is_upload_call (calls (run env fuel)) =
    [ glBufferData GL_ARRAY_BUFFER (4 * (3 * sizeof_float))
        (FloatArray [ 0.5%Q; 0.5%Q; 0.0%Q;
                      0.5%Q; (-0.5)%Q; 0.0%Q;
                      (-0.5)%Q; (-0.5)%Q; 0.0%Q;
                      (-0.5)%Q; 0.5%Q; 0.0%Q ])
        GL_STATIC_DRAW;
      glBufferData GL_ELEMENT_ARRAY_BUFFER (6 * sizeof_unsigned_int)
        (UIntArray [0; 1; 3; 1; 2; 3]) GL_STATIC_DRAW ] /\
  vertices_of triangleVertices =
    [ (0.5%Q, 0.5%Q, 0.0%Q); (0.5%Q, (-0.5)%Q, 0.0%Q);
      ((-0.5)%Q, (-0.5)%Q, 0.0%Q); ((-0.5)%Q, 0.5%Q, 0.0%Q) ] /\
  List.length (vertices_of triangleVertices) = 4%nat /\
  triangles_of indices = [ (0, 1, 3); (1, 2, 3) ] /\
  shared_corners (0, 1, 3) (1, 2, 3) = [1; 3].
Proof.
  intros Hw. split; [|repeat split].
  rewrite (run_filter is_upload_call env fuel); try assumption.
  - destruct (value (run env fuel)); reflexivity.
  - intros []; simpl; congruence.
  - intros []; simpl; congruence.
Qed.

Lemma quad_geometry_upload_witness :
  env_window (env_ok 1) <> NULL /\
  filter is_upload_call (calls (run (env_ok 1) 3)) =
    [ glBufferData GL_ARRAY_BUFFER 48 (FloatArray triangleVertices)
        GL_STATIC_DRAW;
      glBufferData GL_ELEMENT_ARRAY_BUFFER 24 (UIntArray indices)
        GL_STATIC_DRAW ].
Proof.
  assert (Hw : env_window (env_ok 1) <> NULL) by (vm_compute; discriminate).
  split; [exact Hw|].
  exact (proj1 (quad_geometry_upload (env_ok 1) 3 Hw)).
Defined.

(** ** Resizing *)

Lemma loop_head_callback env l w :
  loop_head env l w -> w_fbcb w = Some cb_frameBufferSize_callback.
Proof.
  induction 1 as [Hv|w _ IH _].
  - destruct (Z.eq_dec (env_window env) NULL) as [Hn|Hn].
    + destruct (main_setup_no_window env initial_world Hn) as [Hi _].
      rewrite Hi in Hv. discriminate.
    + destruct (main_setup_post env initial_world Hn)
        as (_ & _ & _ & _ & _ & _ & _ & _ & Hf & _).
      exact Hf.
  - destruct (loop_body_world env l w) as (Hf & _). now rewrite Hf.
Qed.

Lemma deliver_all_viewport win es1 width height es2 w :
  w_fbcb w = Some cb_frameBufferSize_callback ->
  forallb (fun e => negb (is_resize e)) es2 = true ->
  w_viewport
    (world (GLFW.deliver_all win
              (es1 ++ EvFramebufferSize width height :: es2) w))
  = Some (0, 0, width, height).
Proof.
  intros Hf Hes2.
  rewrite deliver_all_app.
  destruct (deliver_all_spec win es1 w) as (_ & Hf1 & _).
  rewrite Hf in Hf1.
  cbn [GLFW.deliver_all]. rewrite world_bind.
  rewrite (deliver_all_keeps_viewport win es2 _ Hes2).
  simpl. rewrite Hf1. reflexivity.
Qed.

(** C4. The resize handler, called with (width, height), makes the one
    call [glViewport(0, 0, width, height)] and leaves that viewport. In a
    run, a resize notification reaches the handler during the poll that
    ends an iteration: its call comes after the draw of that iteration,
    only calls for later notifications of the same poll follow it, and
    when it is the last one the next iteration starts with the viewport
    (0, 0, width, height). *)
Theorem resize_sets_viewport (env : Env) (l : Locals) (w : World)
    (es1 : list Event) (width height : Z) (es2 : list Event) :
  loop_head env l w ->
  env_events env (w_polls w) = es1 ++ EvFramebufferSize width height :: es2 ->
  (forall win w0,
     calls (frameBufferSize_callback win width height w0) =
       [glViewport 0 0 width height] /\
     w_viewport (world (frameBufferSize_callback win width height w0)) =
       Some (0, 0, width, height)) /\
  (exists pre,
     calls (loop_body env l w) =
       pre ++ glViewport 0 0 width height :: resize_calls es2 /\
     filter is_draw_call pre =
       [glDrawElements GL_TRIANGLES 6 GL_UNSIGNED_INT 0]) /\
  (forallb (fun e => negb (is_resize e)) es2 = true ->
   w_viewport (world (loop_body env l w)) = Some (0, 0, width, height)).
Proof.
  intros Hhead Hev.
  pose proof (loop_head_callback env l w Hhead) as Hf.
  split; [intros win w0; split; reflexivity|]. split.
  - destruct (loop_body_calls env l w) as (es & Hc & Hes).
    rewrite (Hes Hf), Hev in Hc.
    exists (input_calls l (escape_pressed w) ++ render_calls l ++
            glfwSwapBuffers (window l) :: glfwPollEvents ::
            resize_calls es1).
    split.
    + rewrite Hc, resize_calls_app. cbn [resize_calls].
      rewrite <- !app_assoc, <- !app_comm_cons. reflexivity.
    + rewrite !filter_app. cbn [filter is_draw_call render_calls app].
      rewrite (filter_none_forallb is_draw_call is_viewport_call
                 (resize_calls es1));
        [|intros []; simpl; congruence|apply resize_calls_viewport].
      destruct (escape_pressed w); reflexivity.
  - intros Hes2.
    destruct (loop_body_spec env l w) as [_ Hw]. rewrite Hw, Hev.
    apply deliver_all_viewport; [|exact Hes2].
    unfold at_poll; simpl. rewrite <- Hf. apply after_input_fields.
Qed.

Lemma resize_sets_viewport_witness :
  let l := setup_locals env_resized initial_world in
  let w := world (loop_body env_resized l
                    (world (main_setup env_resized initial_world))) in
  loop_head env_resized l w /\
  env_events env_resized (w_polls w) =
    [EvFramebufferSize 1024 768] ++ EvFramebufferSize 640 480 :: [] /\
  w_viewport (world (loop_body env_resized l w)) = Some (0, 0, 640, 480).
Proof.
  intros l w.
  assert (Hh : loop_head env_resized l w).
  { apply head_next; [apply head_first|]; vm_compute; reflexivity. }
  assert (He : env_events env_resized (w_polls w) =
               [EvFramebufferSize 1024 768] ++ EvFramebufferSize 640 480 :: [])
    by (vm_compute; reflexivity).
  split; [exact Hh|]. split; [exact He|].
  destruct (resize_sets_viewport env_resized l w _ _ _ _ Hh He)
    as (_ & _ & Hv).
  apply Hv. reflexivity.
Defined.

(** ** Objects created and released *)

(** C5, as the code has it. However long a run with a window is
    followed, it has made six creation calls, all before the loop: the
    vertex array, the vertex buffer, the element buffer, the two shader
    objects and the program. No iteration of the loop makes one. *)
Theorem creation_calls_of_run (env : Env) (fuel : nat) :
  env_window env <> NULL ->
  filter is_creation_call (calls (run env fuel)) =
    [ glGenVertexArrays 1; glGenBuffers 1; glGenBuffers 1;
      glCreateShader GL_VERTEX_SHADER; glCreateShader GL_FRAGMENT_SHADER;
      glCreateProgram ] /\
  (forall l w, filter is_creation_call (calls (loop_body env l w)) = []).
Proof.
  intros Hw. split.
  - rewrite (run_filter is_creation_call env fuel); try assumption.
    + destruct (value (run env fuel)); reflexivity.
    + intros []; simpl; congruence.
    + intros []; simpl; congruence.
  - intros l w. apply loop_body_filter.
    intros []; simpl; congruence.
Qed.

Lemma creation_calls_of_run_witness :
  env_window (env_ok 2) <> NULL /\
  List.length (filter is_creation_call (calls (run (env_ok 2) 4))) = 6%nat.
Proof.
  assert (Hw : env_window (env_ok 2) <> NULL) by (vm_compute; discriminate).
  split; [exact Hw|].
  rewrite (proj1 (creation_calls_of_run (env_ok 2) 4 Hw)). reflexivity.
Defined.

(** C5, as the specification states it, fails: the run in which the
    window is closed at the first poll returns 0 after one frame, and
    its creation calls are six, not four. *)
Lemma creation_calls_not_four :
  value (run (env_ok 0) 2) = Some 0 /\
  List.length (filter is_creation_call (calls (run (env_ok 0) 2))) = 6%nat /\
  List.length (filter is_creation_call (calls (run (env_ok 0) 2))) <> 4%nat.
Proof.
  split; [vm_compute; reflexivity|].
  split; [vm_compute; reflexivity|vm_compute; discriminate].
Qed.

(** C7. However long a run with a window is followed, attribute 0 has
    been described once, as three floats per vertex, not normalised,
    with a stride of three floats and offset 0, and enabled right after;
    no draw call comes before, and the description is never changed
    afterwards. *)
Theorem attribute_binding_before_draw (env : Env) (fuel : nat) :
  env_window env <> NULL ->
  exists pre post,
    calls (run env fuel) =
      pre ++
      glVertexAttribPointer 0 3 GL_FLOAT false (3 * sizeof_float) 0 ::
      glEnableVertexAttribArray 0 :: post /\
    filter is_draw_call pre = [] /\
    filter is_attrib_call pre = [] /\
    filter is_attrib_call post = [].
Proof.
  intros Hw.
  destruct (run_shape env fuel Hw)
    as (d1 & d2 & d3 & body & ended & Hc & _ & H1 & H2 & H3 & Hb).
  pose proof (loop_trace_calls _ _ _ Hb) as Hl.
  set (l := setup_locals env initial_world) in *.
  set (vs := setup_vertexShader env initial_world) in *.
  set (fs := setup_fragmentShader env initial_world) in *.
  exists (firstn 20 (setup_calls l vs fs [] [] []) ++ d1 ++
          [ glShaderSource fs 1 (c_str fragmentSource);
            glCompileShader fs ] ++ d2 ++
          [ glCreateProgram; glAttachShader (shaderProgram l) vs;
            glAttachShader (shaderProgram l) fs;
            glLinkProgram (shaderProgram l) ] ++ d3 ++
          [ glDeleteShader vs; glDeleteShader fs;
            glGetAttribLocation (shaderProgram l) "aPos" ]),
         (body ++ (if ended then teardown_calls l else [])).
  split; [|split; [|split]].
  - rewrite Hc. unfold setup_calls. cbn [firstn].
    repeat (cbn [app]; rewrite <- app_assoc). reflexivity.
  - rewrite !filter_app.
    rewrite (filter_none_forallb is_draw_call is_diagnostic d1),
            (filter_none_forallb is_draw_call is_diagnostic d2),
            (filter_none_forallb is_draw_call is_diagnostic d3);
      try assumption; try (intros []; simpl; congruence).
    reflexivity.
  - rewrite !filter_app.
    rewrite (filter_none_forallb is_attrib_call is_diagnostic d1),
            (filter_none_forallb is_attrib_call is_diagnostic d2),
            (filter_none_forallb is_attrib_call is_diagnostic d3);
      try assumption; try (intros []; simpl; congruence).
    reflexivity.
  - rewrite filter_app.
    rewrite (filter_none_forallb is_attrib_call is_loop_call body);
      try assumption; try (intros []; simpl; congruence).
    destruct ended; reflexivity.
Qed.

Lemma attribute_binding_before_draw_witness :
  env_window (env_ok 1) <> NULL /\
  filter is_attrib_call (calls (run (env_ok 1) 5)) =
    [ glVertexAttribPointer 0 3 GL_FLOAT false 12 0;
      glEnableVertexAttribArray 0 ].
Proof.
  assert (Hw : env_window (env_ok 1) <> NULL) by (vm_compute; discriminate).
  split; [exact Hw|].
  destruct (attribute_binding_before_draw (env_ok 1) 5 Hw)
    as (pre & post & Hc & _ & Hpre & Hpost).
  rewrite Hc, filter_app. cbn [filter is_attrib_call].
  rewrite Hpre, Hpost. reflexivity.
Defined.

(** C8. A run with a window consists of the setup, the loop, and, once
    the loop has ended, five last calls: the release of the vertex
    array, of the vertex buffer, of the element buffer and of the
    program that the setup created, and then [glfwTerminate], after
    which [main] returns. The loop releases nothing, however long it
    runs; before the loop only the two shader objects are released. *)
Theorem resources_released_at_shutdown (env : Env) (fuel : nat) :
  env_window env <> NULL ->
  let l := setup_locals env initial_world in
  exists (d1 d2 d3 loop : list Call) (ended : bool),
    calls (run env fuel) =
      setup_calls l (setup_vertexShader env initial_world)
        (setup_fragmentShader env initial_world) d1 d2 d3 ++
      loop ++
      (if ended then
         [ glDeleteVertexArrays 1 (VAO l);
           glDeleteBuffers 1 (VBO l);
           glDeleteBuffers 1 (EBO l);
           glDeleteProgram (shaderProgram l);
           glfwTerminate ]
       else []) /\
    value (run env fuel) = (if ended then Some 0 else None) /\
    loop_trace l ended loop /\
    filter is_release_call loop = [] /\
    filter is_release_call
      (setup_calls l (setup_vertexShader env initial_world)
         (setup_fragmentShader env initial_world) d1 d2 d3) =
      [ glDeleteShader (setup_vertexShader env initial_world);
        glDeleteShader (setup_fragmentShader env initial_world) ].
Proof.
  intros Hw l.
  destruct (run_shape env fuel Hw)
    as (d1 & d2 & d3 & body & ended & Hc & Hv & H1 & H2 & H3 & Hb).
  exists d1, d2, d3, body, ended.
  split; [exact Hc|]. split; [exact Hv|]. split; [exact Hb|]. split.
  - apply (filter_none_forallb is_release_call is_loop_call body).
    + intros []; simpl; congruence.
    + exact (loop_trace_calls _ _ _ Hb).
  - unfold setup_calls. rewrite !filter_app.
    rewrite (filter_none_forallb is_release_call is_diagnostic d1),
            (filter_none_forallb is_release_call is_diagnostic d2),
            (filter_none_forallb is_release_call is_diagnostic d3);
      try assumption; try (intros []; simpl; congruence).
    reflexivity.
Qed.

Lemma resources_released_at_shutdown_witness :
  env_window (env_ok 1) <> NULL /\
  value (run (env_ok 1) 5) = Some 0 /\
  filter is_release_call (calls (run (env_ok 1) 5)) =
    [ glDeleteShader 4; glDeleteShader 5;
      glDeleteVertexArrays 1 1; glDeleteBuffers 1 2;
      glDeleteBuffers 1 3; glDeleteProgram 6 ].
Proof.
  assert (Hw : env_window (env_ok 1) <> NULL) by (vm_compute; discriminate).
  split; [exact Hw|]. split; [vm_compute; reflexivity|].
  destruct (resources_released_at_shutdown (env_ok 1) 5 Hw)
    as (d1 & d2 & d3 & loop & ended & Hc & Hv & _ & Hloop & Hsetup).
  assert (He : ended = true).
  { destruct ended; [reflexivity|]. vm_compute in Hv. discriminate. }
  subst ended.
  rewrite Hc, !filter_app, Hsetup, Hloop. reflexivity.
Defined.

(** ** Leaving the loop *)

Lemma escape_pressed_true w :
  w_keys w GLFW_KEY_ESCAPE = GLFW_PRESS -> escape_pressed w = true.
Proof. unfold escape_pressed. now intros ->. Qed.

(** C9. When the input check of an iteration sees Escape pressed, the
    iteration calls [glfwSetWindowShouldClose(window, true)] and ends
    with the close flag set: the next test of the loop condition finds
    [glfwWindowShouldClose] true, and the loop ends there, without
    another iteration. *)
Theorem escape_closes_loop (env : Env) (l : Locals) (w : World) :
  w_keys w GLFW_KEY_ESCAPE = GLFW_PRESS ->
  let b := loop_body env l w in
  In (glfwSetWindowShouldClose (window l) true) (calls b) /\
  w_shouldClose (world b) = true /\
  value (GLFW.glfwWindowShouldClose (window l) (world b)) = true /\
  forall fuel,
    render_loop env (S fuel) l (world b) =
      mkOut true (world b) [glfwWindowShouldClose (window l)].
Proof.
  intros Hkey b. subst b.
  pose proof (escape_pressed_true w Hkey) as Hp.
  destruct (loop_body_world env l w) as (_ & _ & Hs).
  rewrite Hp, orb_true_r in Hs. cbn [orb] in Hs.
  destruct (loop_body_calls env l w) as (es & Hc & _).
  rewrite Hp in Hc.
  split; [|split; [|split]].
  - rewrite Hc. simpl. right. left. reflexivity.
  - exact Hs.
  - exact Hs.
  - intros fuel. rewrite render_loop_step, Hs. reflexivity.
Qed.

Lemma escape_closes_loop_witness :
  let l := setup_locals env_fragment_fails initial_world in
  let w := world (loop_body env_fragment_fails l
                    (world (main_setup env_fragment_fails initial_world))) in
  w_keys w GLFW_KEY_ESCAPE = GLFW_PRESS /\
  w_shouldClose w = false /\
  w_shouldClose (world (loop_body env_fragment_fails l w)) = true /\
  value (render_loop env_fragment_fails 1 l
           (world (loop_body env_fragment_fails l w))) = true.
Proof.
  intros l w.
  assert (Hk : w_keys w GLFW_KEY_ESCAPE = GLFW_PRESS)
    by (vm_compute; reflexivity).
  split; [exact Hk|]. split; [vm_compute; reflexivity|].
  destruct (escape_closes_loop env_fragment_fails l w Hk)
    as (_ & Hs & _ & Hloop).
  split; [exact Hs|]. rewrite (Hloop 0%nat). reflexivity.
Defined.

(** C10. An iteration that starts with the close flag down and sees
    Escape pressed is carried out in full: after the close request come
    the clear, the draw, the buffer swap and the poll (with the resize
    handler's calls, if any), and only then the test that ends the loop.
    So the loop issues, from the test that starts this iteration on,
    exactly one draw and one swap. *)
Theorem close_request_frame_completes (env : Env) (l : Locals) (w : World)
    (fuel : nat) :
  w_shouldClose w = false ->
  w_keys w GLFW_KEY_ESCAPE = GLFW_PRESS ->
  exists resized,
    value (render_loop env (S (S fuel)) l w) = true /\
    calls (render_loop env (S (S fuel)) l w) =
      [ glfwWindowShouldClose (window l);
        glfwGetKey (window l) GLFW_KEY_ESCAPE;
        glfwSetWindowShouldClose (window l) true;
        glClearColor 0.2%Q 0.3%Q 0.3%Q 1.0%Q;
        glClear GL_COLOR_BUFFER_BIT;
        glUseProgram (shaderProgram l);
        glBindVertexArray (VAO l);
        glDrawElements GL_TRIANGLES 6 GL_UNSIGNED_INT 0;
        glBindVertexArray 0;
        glfwSwapBuffers (window l);
        glfwPollEvents ] ++
      resized ++ [glfwWindowShouldClose (window l)] /\
    forallb is_viewport_call resized = true.
Proof.
  intros Hopen Hkey.
  pose proof (escape_pressed_true w Hkey) as Hp.
  destruct (loop_body_world env l w) as (_ & _ & Hs).
  rewrite Hp, orb_true_r in Hs. cbn [orb] in Hs.
  destruct (loop_body_calls env l w) as (es & Hc & _).
  rewrite Hp in Hc.
  exists (resize_calls es).
  rewrite render_loop_step, Hopen, render_loop_step, Hs.
  rewrite !value_mk, !calls_mk, Hc.
  split; [reflexivity|]. split; [reflexivity|].
  apply resize_calls_viewport.
Qed.

Lemma close_request_frame_completes_witness :
  let l := setup_locals env_fragment_fails initial_world in
  let w := world (loop_body env_fragment_fails l
                    (world (main_setup env_fragment_fails initial_world))) in
  w_shouldClose w = false /\
  w_keys w GLFW_KEY_ESCAPE = GLFW_PRESS /\
  value (render_loop env_fragment_fails 2 l w) = true /\
  List.length
    (filter is_draw_call (calls (render_loop env_fragment_fails 2 l w)))
  = 1%nat.
Proof.
  intros l w.
  assert (Ho : w_shouldClose w = false) by (vm_compute; reflexivity).
  assert (Hk : w_keys w GLFW_KEY_ESCAPE = GLFW_PRESS)
    by (vm_compute; reflexivity).
  split; [exact Ho|]. split; [exact Hk|].
  destruct (close_request_frame_completes env_fragment_fails l w 0 Ho Hk)
    as (resized & Hr & Hc & Hv).
  split; [exact Hr|].
  rewrite Hc, !filter_app.
  rewrite (filter_none_forallb is_draw_call is_viewport_call resized);
    [reflexivity| |exact Hv].
  intros []; simpl; congruence.
Defined.

(** ** The exit status *)

(** C6. When [main] returns, it returns -1 if [glfwCreateWindow]
    returned NULL and 0 otherwise. Without a window it returns at once,
    after one attempt to create the window. With a window, it returns
    (with 0) once a poll has delivered a close request. No run asks for
    a window twice. *)
Theorem exit_status (env : Env) :
  (forall fuel code,
     value (run env fuel) = Some code ->
     (code <> 0 <-> env_window env = NULL) /\ (code = 0 \/ code = -1)) /\
  (forall fuel,
     List.length (filter is_createWindow_call (calls (run env fuel)))
     = 1%nat) /\
  (env_window env = NULL ->
   forall fuel,
     value (run env fuel) = Some (-1) /\
     filter is_gl_call (calls (run env fuel)) = []) /\
  (env_window env <> NULL ->
   forall k, In EvWindowClose (env_events env k) ->
   forall fuel, (k + 2 <= fuel)%nat -> value (run env fuel) = Some 0).
Proof.
  split; [|split; [|split]].
  - intros fuel code Hrun.
    destruct (Z.eq_dec (env_window env) NULL) as [Hn|Hn].
    + destruct (run_no_window env fuel Hn) as (Hv & _).
      rewrite Hrun in Hv. apply Some_eq in Hv. subst code.
      repeat split; auto; discriminate.
    + destruct (run_shape env fuel Hn)
        as (d1 & d2 & d3 & body & ended & _ & Hv & _).
      rewrite Hrun in Hv. destruct ended; [|discriminate].
      apply Some_eq in Hv. subst code.
      split; [split; [congruence|intros; contradiction]|now left].
  - intros fuel.
    destruct (Z.eq_dec (env_window env) NULL) as [Hn|Hn].
    + destruct (run_no_window env fuel Hn) as (_ & Hc).
      rewrite Hc. reflexivity.
    + rewrite (run_filter is_createWindow_call env fuel);
        try assumption; try (intros []; simpl; congruence).
      destruct (value (run env fuel)); reflexivity.
  - intros Hn fuel.
    destruct (run_no_window env fuel Hn) as (Hv & Hc).
    split; [exact Hv|]. rewrite Hc. reflexivity.
  - intros Hn k Hin fuel Hfuel.
    exact (run_terminates env k Hn Hin fuel Hfuel).
Qed.

Lemma exit_status_witness :
  (env_window env_no_window = NULL /\
   value (run env_no_window 0) = Some (-1)) /\
  (env_window (env_ok 3) <> NULL /\
   In EvWindowClose (env_events (env_ok 3) 3) /\
   (3 + 2 <= 5)%nat /\
   value (run (env_ok 3) 5) = Some 0).
Proof.
  split.
  - assert (Hn : env_window env_no_window = NULL) by reflexivity.
    split; [exact Hn|].
    destruct (exit_status env_no_window) as (_ & _ & H & _).
    exact (proj1 (H Hn 0%nat)).
  - assert (Hw : env_window (env_ok 3) <> NULL)
      by (vm_compute; discriminate).
    assert (Hin : In EvWindowClose (env_events (env_ok 3) 3))
      by (simpl; left; reflexivity).
    assert (Hle : (3 + 2 <= 5)%nat) by lia.
    split; [exact Hw|]. split; [exact Hin|]. split; [exact Hle|].
    destruct (exit_status (env_ok 3)) as (_ & _ & _ & H).
    exact (H Hw 3%nat Hin 5%nat Hle).
Defined.

(** ** Reporting a shader that does not compile *)

Lemma lookup_update {A : Type} (k : GLuint) (f : A -> A)
    (l : list (GLuint * A)) :
  lookup k (update k f l) = option_map f (lookup k l).
Proof.
  unfold update. destruct (lookup k l) as [v|] eqn:E.
  - apply lookup_store.
  - exact E.
Qed.

(** A shader object whose compile status is false: the status query
    answers 0, the info log is fetched, and one line is written. The
    text does not depend on the stage of the object. *)
Lemma check_shader_failed env shader w o :
  lookup shader (w_shaders w) = Some o ->
  sh_compiled o = false ->
  value (GL.glGetShaderiv shader GL_COMPILE_STATUS w) = Some 0 /\
  calls (checkIfShaderRunSucessfully env shader w) =
    [ glGetShaderiv shader GL_COMPILE_STATUS;
      glGetShaderInfoLog shader 512;
      cout ("ERROR::SHADER::VERTEX::COMPILATION_FAILED" ++ nl
            ++ c_str (String.substring 0 511 (sh_infoLog o)) ++ nl)%string ].
Proof.
  intros Hl Hc.
  unfold checkIfShaderRunSucessfully, GL.glGetShaderiv,
    GL.glGetShaderInfoLog, std_cout, bind, emit, get, ret.
  cbn [value world calls]. rewrite Hl, Hc. cbn [value world calls Z.eqb].
  rewrite Hl. split; reflexivity.
Qed.


(** After [glShaderSource] and [glCompileShader] the object holds what
    the driver's compiler answered for its stage and the source. *)
Lemma compiled_shader env shader source w o :
  lookup shader (w_shaders w) = Some o ->
  lookup shader
    (w_shaders (world (GL.glCompileShader env shader
                         (world (GL.glShaderSource shader 1 source w))))) =
  Some (mkShader (sh_type o) (c_str source)
          (fst (env_compile env (sh_type o) (c_str source)))
          (snd (env_compile env (sh_type o) (c_str source)))).
Proof.
  intros Hl.
  unfold GL.glCompileShader, GL.glShaderSource, bind, emit, modify.
  cbn [world value calls set_shaders w_shaders].
  rewrite !lookup_update, Hl. cbn [option_map sh_type sh_source].
  destruct (env_compile env (sh_type o) (c_str source)); reflexivity.
Qed.

(** The fragment stage: when the driver rejects the fragment source,
    [createFragmentShader] writes the line that names the vertex stage. *)
Lemma createFragmentShader_failure env fragmentShader w o log :
  lookup fragmentShader (w_shaders w) = Some o ->
  sh_type o = GL_FRAGMENT_SHADER ->
  env_compile env GL_FRAGMENT_SHADER (c_str fragmentSource) = (false, log) ->
  calls (createFragmentShader env fragmentShader w) =
    [ glShaderSource fragmentShader 1 (c_str fragmentSource);
      glCompileShader fragmentShader;
      glGetShaderiv fragmentShader GL_COMPILE_STATUS;
      glGetShaderInfoLog fragmentShader 512;
      cout ("ERROR::SHADER::VERTEX::COMPILATION_FAILED" ++ nl
            ++ c_str (String.substring 0 511 log) ++ nl)%string ].
Proof.
  intros Hl Ht Hc.
  unfold createFragmentShader.
  rewrite calls_bind; cbv beta. rewrite calls_bind; cbv beta.
  pose proof (compiled_shader env fragmentShader fragmentSource w o Hl) as H2.
  rewrite Ht, Hc in H2. cbn [fst snd] in H2.
  destruct (check_shader_failed env fragmentShader _ _ H2 eq_refl)
    as [_ Hcheck].
  rewrite Hcheck. reflexivity.
Qed.

(** The vertex stage is reported with the same line. *)
Lemma createVertexShader_failure env vertexShader w o log :
  lookup vertexShader (w_shaders w) = Some o ->
  sh_type o = GL_VERTEX_SHADER ->
  env_compile env GL_VERTEX_SHADER (c_str vertexSource) = (false, log) ->
  calls (createVertexShader env vertexShader w) =
    [ glShaderSource vertexShader 1 (c_str vertexSource);
      glCompileShader vertexShader;
      glGetShaderiv vertexShader GL_COMPILE_STATUS;
      glGetShaderInfoLog vertexShader 512;
      cout ("ERROR::SHADER::VERTEX::COMPILATION_FAILED" ++ nl
            ++ c_str (String.substring 0 511 log) ++ nl)%string ].
Proof.
  intros Hl Ht Hc.
  unfold createVertexShader.
  rewrite calls_bind; cbv beta. rewrite calls_bind; cbv beta.
  pose proof (compiled_shader env vertexShader vertexSource w o Hl) as H2.
  rewrite Ht, Hc in H2. cbn [fst snd] in H2.
  destruct (check_shader_failed env vertexShader _ _ H2 eq_refl)
    as [_ Hcheck].
  rewrite Hcheck. reflexivity.
Qed.

(** C1, on a run. The driver compiles the vertex shader and rejects the
    fragment shader. The status query on the fragment shader object
    (name 5) is followed by the fetch of its info log, so the status was
    false; the run goes on, draws two frames and returns 0 when Escape
    is pressed. The line written for the fragment shader names the
    vertex stage: nothing in the log names the fragment stage. *)
Theorem fragment_failure_logged_as_vertex :
  value (run env_fragment_fails 3) = Some 0 /\
  filter is_diagnostic (calls (run env_fragment_fails 3)) =
    [ glGetShaderiv 4 GL_COMPILE_STATUS;
      glGetShaderiv 5 GL_COMPILE_STATUS;
      glGetShaderInfoLog 5 512;
      cout ("ERROR::SHADER::VERTEX::COMPILATION_FAILED" ++ nl
            ++ "0(5) : error C0000: syntax error" ++ nl)%string;
      glGetProgramiv 6 GL_LINK_STATUS;
      glGetProgramInfoLog 6 512;
      cout (nl ++ "(Shader PROGRAM Error.) "
            ++ "ERROR::SHADER::VERTEX::COMPILATION_FAILED" ++ nl
            ++ "error: linking with uncompiled shader" ++ nl)%string ] /\
  contains "FRAGMENT" (log_stream (calls (run env_fragment_fails 3)))
    = false /\
  contains "fragment" (log_stream (calls (run env_fragment_fails 3)))
    = false /\
  contains "VERTEX" (log_stream (calls (run env_fragment_fails 3)))
    = true /\
  filter is_draw_call (calls (run env_fragment_fails 3)) =
    [ glDrawElements GL_TRIANGLES 6 GL_UNSIGNED_INT 0;
      glDrawElements GL_TRIANGLES 6 GL_UNSIGNED_INT 0 ].
Proof. repeat split; vm_compute; reflexivity. Qed.

(* ------------------------------------------------------------------ *)
(** * Further properties of the code *)

(** ** The setup, call by call *)














(** ** Text *)






(** ** The log of a run *)






(** ** Runs with a window, unfolded *)

Lemma main_setup_world env w :
  env_window env <> NULL ->
  let w' := world (main_setup env w) in
  w_shouldClose w' = w_shouldClose w /\
  w_keys w' = w_keys w /\
  w_polls w' = w_polls w /\
  w_viewport w' = w_viewport w /\
  w_names w' = (6 + w_names w)%nat /\
  w_fbcb w' = Some cb_frameBufferSize_callback.
Proof.
  intros Hw. apply Z.eqb_neq in Hw.
  change (post (main_setup env) w (fun _ w' _ =>
    w_shouldClose w' = w_shouldClose w /\
    w_keys w' = w_keys w /\
    w_polls w' = w_polls w /\
    w_viewport w' = w_viewport w /\
    w_names w' = (6 + w_names w)%nat /\
    w_fbcb w' = Some cb_frameBufferSize_callback)).
  unfold main_setup.
  repeat step. rewrite Hw. repeat step.
  repeat split.
Qed.

Lemma run_unfold env fuel :
  env_window env <> NULL ->
  let l := setup_locals env initial_world in
  let s := main_setup env initial_world in
  let r := render_loop env fuel l (world s) in
  run env fuel =
    if value r
    then mkOut (Some 0) (world r) (calls s ++ calls r ++ teardown_calls l)
    else mkOut None (world r) (calls s ++ calls r).
Proof.
  intros Hw. cbv zeta.
  destruct (main_setup_post env initial_world Hw)
    as (_ & _ & _ & Hv & _).
  cbv beta zeta in Hv.
  unfold run, main. rewrite Hv.
  destruct (value (render_loop env fuel _ _)); reflexivity.
Qed.




Lemma setup_filter (p : Call -> bool) env w :
  (forall c, is_diagnostic c = true -> p c = false) ->
  env_window env <> NULL ->
  filter p (calls (main_setup env w)) =
    filter p (setup_calls (setup_locals env w) (setup_vertexShader env w)
                (setup_fragmentShader env w) [] [] []).
Proof.
  intros Hd Hw.
  destruct (main_setup_post env w Hw)
    as (d1 & d2 & d3 & _ & Hc & H1 & H2 & H3 & _).
  cbv beta zeta in Hc. rewrite Hc. unfold setup_calls.
  rewrite !filter_app.
  rewrite (filter_none_forallb p is_diagnostic d1 Hd H1).
  rewrite (filter_none_forallb p is_diagnostic d2 Hd H2).
  rewrite (filter_none_forallb p is_diagnostic d3 Hd H3).
  reflexivity.
Qed.








(** ** Without a window *)

Lemma main_setup_no_window_world env w :
  env_window env = NULL ->
  w_names (world (main_setup env w)) = w_names w /\
  w_fbcb (world (main_setup env w)) = w_fbcb w.
Proof.
  intros Hw.
  change (post (main_setup env) w (fun _ w' _ =>
    w_names w' = w_names w /\ w_fbcb w' = w_fbcb w)).
  unfold main_setup.
  repeat step. rewrite Hw. simpl (NULL =? NULL). cbv iota. repeat step.
  split; reflexivity.
Qed.

(** X4. When [glfwCreateWindow] returns NULL the program does exactly
    this, and nothing more: the four GLFW calls that precede it, the
    attempt, the line "Failed to create GLFW window" on the log, and
    [glfwTerminate]. No handler is registered, no OpenGL object is asked
    for, the loop is never entered. *)
Theorem window_failure_path (env : Env) (fuel : nat) :
  env_window env = NULL ->
  calls (run env fuel) =
    [ glfwInit;
      glfwWindowHint GLFW_CONTEXT_VERSION_MAJOR (HintInt 3);
      glfwWindowHint GLFW_CONTEXT_VERSION_MINOR (HintInt 3);
      glfwWindowHint GLFW_OPENGL_PROFILE GLFW_OPENGL_CORE_PROFILE;
      glfwCreateWindow 800 600 "Aprendendo OpenGL/GLFW";
      cout ("Failed to create GLFW window" ++ nl)%string;
      glfwTerminate ] /\
  w_names (world (run env fuel)) = 0%nat /\
  w_fbcb (world (run env fuel)) = None.
Proof.
  intros Hw.
  destruct (run_no_window env fuel Hw) as [_ Hc].
  destruct (main_setup_no_window env initial_world Hw) as [Hv _].
  destruct (main_setup_no_window_world env initial_world Hw) as [Hn Hf].
  split; [exact Hc|].
  unfold run, main. rewrite Hv. split; [exact Hn|exact Hf].
Qed.

Lemma window_failure_path_witness :
  env_window env_no_window = NULL /\
  log_stream (calls (run env_no_window 7)) =
    ("Failed to create GLFW window" ++ nl)%string.
Proof.
  assert (Hw : env_window env_no_window = NULL) by reflexivity.
  split; [exact Hw|].
  rewrite (proj1 (window_failure_path env_no_window 7 Hw)). reflexivity.
Defined.

(** ** How long the loop runs *)

Lemma deliver_all_escape win es : forall w,
  w_keys (world (GLFW.deliver_all win es w)) GLFW_KEY_ESCAPE =
  escape_after (w_keys w GLFW_KEY_ESCAPE) es.
Proof.
  induction es as [|e es IH]; intros w; [reflexivity|].
  cbn [GLFW.deliver_all]. rewrite world_bind, IH.
  destruct e as [[|code] state|width height|]; simpl; try reflexivity.
  destruct (w_fbcb w) as [[]|]; reflexivity.
Qed.

Lemma deliver_all_names win es : forall w,
  w_names (world (GLFW.deliver_all win es w)) = w_names w.
Proof.
  induction es as [|e es IH]; intros w; [reflexivity|].
  cbn [GLFW.deliver_all]. rewrite world_bind, IH.
  destruct e as [key state|width height|]; simpl; try reflexivity.
  destruct (w_fbcb w) as [[]|]; reflexivity.
Qed.

Lemma loop_body_escape env l w :
  w_keys (world (loop_body env l w)) GLFW_KEY_ESCAPE =
  escape_after (w_keys w GLFW_KEY_ESCAPE) (env_events env (w_polls w)).
Proof.
  destruct (loop_body_spec env l w) as [_ Hw]. rewrite Hw.
  rewrite deliver_all_escape. unfold at_poll, after_input.
  destruct (escape_pressed w); reflexivity.
Qed.

Lemma loop_body_names env l w :
  w_names (world (loop_body env l w)) = w_names w.
Proof.
  destruct (loop_body_spec env l w) as [_ Hw]. rewrite Hw.
  rewrite deliver_all_names. unfold at_poll, after_input.
  destruct (escape_pressed w); reflexivity.
Qed.

Lemma escape_released w :
  w_keys w GLFW_KEY_ESCAPE = GLFW_RELEASE -> escape_pressed w = false.
Proof. unfold escape_pressed. now intros ->. Qed.

Lemma calm_spec es :
  calm es = true ->
  existsb is_close es = false /\
  escape_after GLFW_RELEASE es = GLFW_RELEASE.
Proof.
  unfold calm. intros H. apply andb_true_iff in H as [Hc He].
  apply negb_true_iff in Hc. split; [exact Hc|].
  destruct (escape_after GLFW_RELEASE es); [reflexivity|discriminate].
Qed.

(** An iteration whose poll is calm leaves the loop as it found it. *)
Lemma calm_iteration env l w :
  w_shouldClose w = false ->
  w_keys w GLFW_KEY_ESCAPE = GLFW_RELEASE ->
  calm (env_events env (w_polls w)) = true ->
  w_shouldClose (world (loop_body env l w)) = false /\
  w_keys (world (loop_body env l w)) GLFW_KEY_ESCAPE = GLFW_RELEASE /\
  w_polls (world (loop_body env l w)) = S (w_polls w).
Proof.
  intros Hs Hk Hcalm.
  destruct (calm_spec _ Hcalm) as [Hc He].
  destruct (loop_body_world env l w) as (_ & Hp & Hs').
  rewrite Hs, (escape_released w Hk), Hc in Hs'.
  rewrite loop_body_escape, Hk, He. auto.
Qed.

Lemma loop_body_draws env l w :
  filter is_draw_call (calls (loop_body env l w)) = [the_draw].
Proof.
  destruct (loop_body_calls env l w) as (es & Hc & _). rewrite Hc.
  rewrite !filter_app. cbn [filter is_draw_call render_calls app].
  rewrite (filter_none_forallb is_draw_call is_viewport_call
             (resize_calls es));
    [|intros []; simpl; congruence|apply resize_calls_viewport].
  destruct (escape_pressed w); reflexivity.
Qed.

Lemma render_loop_calm env l : forall fuel w,
  w_shouldClose w = false ->
  w_keys w GLFW_KEY_ESCAPE = GLFW_RELEASE ->
  (forall j, (j < fuel)%nat ->
     calm (env_events env (w_polls w + j)) = true) ->
  value (render_loop env fuel l w) = false /\
  filter is_draw_call (calls (render_loop env fuel l w)) =
    repeat the_draw fuel.
Proof.
  induction fuel as [|fuel IH]; intros w Hs Hk Hcalm; [split; reflexivity|].
  rewrite render_loop_step, Hs, value_mk, calls_mk.
  assert (H0 : calm (env_events env (w_polls w)) = true).
  { rewrite <- (Nat.add_0_r (w_polls w)). apply Hcalm. lia. }
  destruct (calm_iteration env l w Hs Hk H0) as (Hs' & Hk' & Hp').
  destruct (IH (world (loop_body env l w)) Hs' Hk') as [Hv Hd].
  { intros j Hj. rewrite Hp'.
    replace (S (w_polls w) + j)%nat with (w_polls w + S j)%nat by lia.
    apply Hcalm. lia. }
  split; [exact Hv|].
  cbn [filter is_draw_call]. rewrite filter_app, loop_body_draws, Hd.
  reflexivity.
Qed.

Lemma render_loop_close_at env l : forall k w,
  w_shouldClose w = false ->
  w_keys w GLFW_KEY_ESCAPE = GLFW_RELEASE ->
  (forall j, (j < k)%nat ->
     calm (env_events env (w_polls w + j)) = true) ->
  existsb is_close (env_events env (w_polls w + k)) = true ->
  value (render_loop env (k + 2) l w) = true /\
  filter is_draw_call (calls (render_loop env (k + 2) l w)) =
    repeat the_draw (k + 1).
Proof.
  induction k as [|k IH]; intros w Hs Hk Hcalm Hclose.
  - rewrite Nat.add_0_r in Hclose. cbn [Nat.add].
    rewrite render_loop_step, Hs, value_mk, calls_mk, render_loop_step.
    destruct (loop_body_world env l w) as (_ & _ & Hs').
    rewrite Hclose, orb_true_r in Hs'. rewrite Hs'.
    split; [reflexivity|].
    cbn [filter is_draw_call]. rewrite filter_app, loop_body_draws.
    reflexivity.
  - cbn [Nat.add].
    rewrite render_loop_step, Hs, value_mk, calls_mk.
    assert (H0 : calm (env_events env (w_polls w)) = true).
    { rewrite <- (Nat.add_0_r (w_polls w)). apply Hcalm. lia. }
    destruct (calm_iteration env l w Hs Hk H0) as (Hs' & Hk' & Hp').
    destruct (IH (world (loop_body env l w)) Hs' Hk') as [Hv Hd].
    { intros j Hj. rewrite Hp'.
      replace (S (w_polls w) + j)%nat with (w_polls w + S j)%nat by lia.
      apply Hcalm. lia. }
    { rewrite Hp'.
      replace (S (w_polls w) + k)%nat with (w_polls w + S k)%nat by lia.
      exact Hclose. }
    split; [exact Hv|].
    cbn [filter is_draw_call]. rewrite filter_app, loop_body_draws, Hd.
    reflexivity.
Qed.

Lemma render_loop_escape_at env l : forall k w,
  w_shouldClose w = false ->
  w_keys w GLFW_KEY_ESCAPE = GLFW_RELEASE ->
  (forall j, (j < k)%nat ->
     calm (env_events env (w_polls w + j)) = true) ->
  existsb is_close (env_events env (w_polls w + k)) = false ->
  escape_after GLFW_RELEASE (env_events env (w_polls w + k)) = GLFW_PRESS ->
  value (render_loop env (k + 3) l w) = true /\
  filter is_draw_call (calls (render_loop env (k + 3) l w)) =
    repeat the_draw (k + 2).
Proof.
  induction k as [|k IH]; intros w Hs Hk Hcalm Hclose Hesc.
  - rewrite Nat.add_0_r in Hclose, Hesc. cbn [Nat.add].
    rewrite render_loop_step, Hs, value_mk, calls_mk.
    destruct (loop_body_world env l w) as (_ & _ & Hs1).
    rewrite Hs, (escape_released w Hk), Hclose in Hs1. cbn [orb] in Hs1.
    pose proof (loop_body_escape env l w) as Hk1.
    rewrite Hk, Hesc in Hk1.
    rewrite render_loop_step, Hs1, value_mk, calls_mk, render_loop_step.
    destruct (loop_body_world env l (world (loop_body env l w)))
      as (_ & _ & Hs2).
    rewrite (escape_pressed_true _ Hk1), orb_true_r in Hs2.
    cbn [orb] in Hs2. rewrite Hs2.
    split; [reflexivity|].
    cbn [filter is_draw_call].
    rewrite filter_app, loop_body_draws. cbn [app filter is_draw_call].
    rewrite filter_app, loop_body_draws. reflexivity.
  - cbn [Nat.add].
    rewrite render_loop_step, Hs, value_mk, calls_mk.
    assert (H0 : calm (env_events env (w_polls w)) = true).
    { rewrite <- (Nat.add_0_r (w_polls w)). apply Hcalm. lia. }
    destruct (calm_iteration env l w Hs Hk H0) as (Hs' & Hk' & Hp').
    destruct (IH (world (loop_body env l w)) Hs' Hk') as [Hv Hd].
    { intros j Hj. rewrite Hp'.
      replace (S (w_polls w) + j)%nat with (w_polls w + S j)%nat by lia.
      apply Hcalm. lia. }
    { rewrite Hp'.
      replace (S (w_polls w) + k)%nat with (w_polls w + S k)%nat by lia.
      exact Hclose. }
    { rewrite Hp'.
      replace (S (w_polls w) + k)%nat with (w_polls w + S k)%nat by lia.
      exact Hesc. }
    split; [exact Hv|].
    cbn [filter is_draw_call]. rewrite filter_app, loop_body_draws, Hd.
    reflexivity.
Qed.

(** The loop starts with the close flag down, Escape released and no
    poll answered; the setup and the teardown draw nothing. *)
Lemma loop_start env :
  env_window env <> NULL ->
  let w := world (main_setup env initial_world) in
  w_shouldClose w = false /\
  w_keys w GLFW_KEY_ESCAPE = GLFW_RELEASE /\
  w_polls w = 0%nat /\
  filter is_draw_call (calls (main_setup env initial_world)) = [].
Proof.
  intros Hw.
  destruct (main_setup_world env initial_world Hw)
    as (Hs & Hk & Hp & _).
  cbv zeta. rewrite Hs, Hk, Hp.
  repeat split.
  rewrite (setup_filter is_draw_call env initial_world); [reflexivity| |exact Hw].
  intros []; simpl; congruence.
Qed.

(** X5. The loop ends for no other reason than a close request or
    Escape: as long as no poll asks to close or leaves Escape pressed,
    [main] does not return, and it has drawn one frame for every test of
    the loop condition. Other keys, resizes, and an Escape that is
    pressed and released within one poll do not end it. *)
Theorem loop_keeps_drawing (env : Env) (fuel : nat) :
  env_window env <> NULL ->
  (forall j, (j < fuel)%nat -> calm (env_events env j) = true) ->
  value (run env fuel) = None /\
  filter is_draw_call (calls (run env fuel)) = repeat the_draw fuel.
Proof.
  intros Hw Hcalm.
  destruct (loop_start env Hw) as (Hs & Hk & Hp & Hd0).
  destruct (render_loop_calm env (setup_locals env initial_world) fuel
              (world (main_setup env initial_world)) Hs Hk) as [Hv Hd].
  { intros j Hj. rewrite Hp. apply Hcalm, Hj. }
  rewrite (run_unfold env fuel Hw). cbv zeta. rewrite Hv.
  split; [reflexivity|].
  rewrite calls_mk, filter_app, Hd0, Hd. reflexivity.
Qed.

Lemma loop_keeps_drawing_witness :
  env_window env_busy <> NULL /\
  (forall j, (j < 4)%nat -> calm (env_events env_busy j) = true) /\
  value (run env_busy 4) = None /\
  filter is_draw_call (calls (run env_busy 4)) =
    [the_draw; the_draw; the_draw; the_draw].
Proof.
  assert (Hw : env_window env_busy <> NULL) by (vm_compute; discriminate).
  assert (Hc : forall j, (j < 4)%nat ->
                 calm (env_events env_busy j) = true).
  { intros j Hj.
    destruct j as [|[|[|[|j]]]]; first [reflexivity | lia]. }
  split; [exact Hw|]. split; [exact Hc|].
  exact (loop_keeps_drawing env_busy 4 Hw Hc).
Defined.

(** X6. If the polls before poll [k] are calm and poll [k] delivers a
    close request, [main] returns 0 after drawing exactly [k + 1]
    frames: the frame in progress is finished, no further one is
    started. *)
Theorem close_request_ends_run (env : Env) (k fuel : nat) :
  env_window env <> NULL ->
  (forall j, (j < k)%nat -> calm (env_events env j) = true) ->
  In EvWindowClose (env_events env k) ->
  (k + 2 <= fuel)%nat ->
  value (run env fuel) = Some 0 /\
  filter is_draw_call (calls (run env fuel)) = repeat the_draw (k + 1).
Proof.
  intros Hw Hcalm Hin Hfuel.
  destruct (loop_start env Hw) as (Hs & Hk & Hp & Hd0).
  destruct (render_loop_close_at env (setup_locals env initial_world) k
              (world (main_setup env initial_world)) Hs Hk) as [Hv Hd].
  { intros j Hj. rewrite Hp. apply Hcalm, Hj. }
  { rewrite Hp. apply existsb_exists.
    exists EvWindowClose. split; [exact Hin|reflexivity]. }
  rewrite (run_unfold env fuel Hw). cbv zeta.
  rewrite (render_loop_more_fuel env _ _ fuel _ Hv Hfuel), Hv.
  split; [reflexivity|].
  rewrite calls_mk, !filter_app, Hd0, Hd. cbn [filter teardown_calls
    is_draw_call app]. now rewrite app_nil_r.
Qed.

Lemma close_request_ends_run_witness :
  env_window (env_ok 2) <> NULL /\
  (forall j, (j < 2)%nat -> calm (env_events (env_ok 2) j) = true) /\
  In EvWindowClose (env_events (env_ok 2) 2) /\
  (2 + 2 <= 9)%nat /\
  value (run (env_ok 2) 9) = Some 0 /\
  filter is_draw_call (calls (run (env_ok 2) 9)) =
    [the_draw; the_draw; the_draw].
Proof.
  assert (Hw : env_window (env_ok 2) <> NULL) by (vm_compute; discriminate).
  assert (Hc : forall j, (j < 2)%nat ->
                 calm (env_events (env_ok 2) j) = true).
  { intros j Hj. destruct j as [|[|j]]; first [reflexivity | lia]. }
  assert (Hin : In EvWindowClose (env_events (env_ok 2) 2))
    by (simpl; left; reflexivity).
  assert (Hle : (2 + 2 <= 9)%nat) by lia.
  split; [exact Hw|]. split; [exact Hc|]. split; [exact Hin|].
  split; [exact Hle|].
  exact (close_request_ends_run (env_ok 2) 2 9 Hw Hc Hin Hle).
Defined.

(** X7. If the polls before poll [k] are calm and poll [k], without a
    close request, leaves Escape pressed, [main] returns 0 after drawing
    exactly [k + 2] frames: the press is seen by the input check of the
    next iteration, which is still drawn. *)
Theorem escape_ends_run (env : Env) (k fuel : nat) :
  env_window env <> NULL ->
  (forall j, (j < k)%nat -> calm (env_events env j) = true) ->
  existsb is_close (env_events env k) = false ->
  escape_after GLFW_RELEASE (env_events env k) = GLFW_PRESS ->
  (k + 3 <= fuel)%nat ->
  value (run env fuel) = Some 0 /\
  filter is_draw_call (calls (run env fuel)) = repeat the_draw (k + 2).
Proof.
  intros Hw Hcalm Hclose Hesc Hfuel.
  destruct (loop_start env Hw) as (Hs & Hk & Hp & Hd0).
  destruct (render_loop_escape_at env (setup_locals env initial_world) k
              (world (main_setup env initial_world)) Hs Hk) as [Hv Hd].
  { intros j Hj. rewrite Hp. apply Hcalm, Hj. }
  { rewrite Hp. exact Hclose. }
  { rewrite Hp. exact Hesc. }
  rewrite (run_unfold env fuel Hw). cbv zeta.
  rewrite (render_loop_more_fuel env _ _ fuel _ Hv Hfuel), Hv.
  split; [reflexivity|].
  rewrite calls_mk, !filter_app, Hd0, Hd. cbn [filter teardown_calls
    is_draw_call app]. now rewrite app_nil_r.
Qed.

Lemma escape_ends_run_witness :
  env_window env_resized <> NULL /\
  (forall j, (j < 2)%nat -> calm (env_events env_resized j) = true) /\
  existsb is_close (env_events env_resized 2) = false /\
  escape_after GLFW_RELEASE (env_events env_resized 2) = GLFW_PRESS /\
  (2 + 3 <= 6)%nat /\
  value (run env_resized 6) = Some 0 /\
  filter is_draw_call (calls (run env_resized 6)) =
    [the_draw; the_draw; the_draw; the_draw].
Proof.
  assert (Hw : env_window env_resized <> NULL) by (vm_compute; discriminate).
  assert (Hc : forall j, (j < 2)%nat ->
                 calm (env_events env_resized j) = true).
  { intros j Hj. destruct j as [|[|j]]; first [reflexivity | lia]. }
  assert (Hcl : existsb is_close (env_events env_resized 2) = false)
    by reflexivity.
  assert (He : escape_after GLFW_RELEASE (env_events env_resized 2)
               = GLFW_PRESS) by reflexivity.
  assert (Hle : (2 + 3 <= 6)%nat) by lia.
  split; [exact Hw|]. split; [exact Hc|]. split; [exact Hcl|].
  split; [exact He|]. split; [exact Hle|].
  exact (escape_ends_run env_resized 2 6 Hw Hc Hcl He Hle).
Defined.

(** ** Counting what the loop issues *)

Lemma filter_viewport_resize es :
  filter is_viewport_call (resize_calls es) = resize_calls es.
Proof.
  induction es as [|[] es IH]; simpl; rewrite ?IH; reflexivity.
Qed.

Lemma loop_body_counts env l w :
  w_fbcb w = Some cb_frameBufferSize_callback ->
  filter is_swap_call (calls (loop_body env l w)) =
    [glfwSwapBuffers (window l)] /\
  filter is_poll_call (calls (loop_body env l w)) = [glfwPollEvents] /\
  filter is_viewport_call (calls (loop_body env l w)) =
    resize_calls (env_events env (w_polls w)).
Proof.
  intros Hf.
  destruct (loop_body_calls env l w) as (es & Hc & Hes).
  rewrite (Hes Hf) in Hc. rewrite Hc. clear Hc Hes.
  rewrite !filter_app.
  cbn [filter is_swap_call is_poll_call is_viewport_call render_calls app].
  rewrite filter_viewport_resize.
  rewrite (filter_none_forallb is_swap_call is_viewport_call
             (resize_calls (env_events env (w_polls w))));
    [|intros []; simpl; congruence|apply resize_calls_viewport].
  rewrite (filter_none_forallb is_poll_call is_viewport_call
             (resize_calls (env_events env (w_polls w))));
    [|intros []; simpl; congruence|apply resize_calls_viewport].
  destruct (escape_pressed w); repeat split.
Qed.

(** The loop, iteration by iteration: [n] polls answered, [n] draws,
    [n] swaps, [n] polls, and the viewport calls of the resize
    notifications of those polls. *)
Lemma render_loop_counts env l : forall fuel w,
  w_fbcb w = Some cb_frameBufferSize_callback ->
  exists n,
    w_polls (world (render_loop env fuel l w)) = (w_polls w + n)%nat /\
    w_names (world (render_loop env fuel l w)) = w_names w /\
    filter is_draw_call (calls (render_loop env fuel l w)) =
      repeat the_draw n /\
    filter is_swap_call (calls (render_loop env fuel l w)) =
      repeat (glfwSwapBuffers (window l)) n /\
    filter is_poll_call (calls (render_loop env fuel l w)) =
      repeat glfwPollEvents n /\
    filter is_viewport_call (calls (render_loop env fuel l w)) =
      resize_calls (flat_map (env_events env) (seq (w_polls w) n)).
Proof.
  induction fuel as [|fuel IH]; intros w Hf.
  - exists 0%nat. cbn [render_loop world calls]. rewrite Nat.add_0_r.
    repeat split.
  - rewrite render_loop_step.
    destruct (w_shouldClose w).
    + exists 0%nat. cbn [world calls]. rewrite Nat.add_0_r. repeat split.
    + destruct (loop_body_world env l w) as (Hf' & Hp' & _).
      rewrite Hf in Hf'.
      destruct (IH (world (loop_body env l w)) Hf')
        as (n & Hp & Hn & Hd & Hs & Hq & Hv).
      destruct (loop_body_counts env l w Hf) as (Bs & Bq & Bv).
      exists (S n). cbn [world calls].
      rewrite Hp, Hp', Hn, loop_body_names.
      cbn [filter is_draw_call is_swap_call is_poll_call is_viewport_call].
      rewrite !filter_app, loop_body_draws, Hd, Bs, Hs, Bq, Hq, Bv, Hv.
      rewrite Hp'. cbn [seq flat_map repeat app].
      rewrite resize_calls_app.
      repeat split. lia.
Qed.

Lemma run_counts env fuel :
  env_window env <> NULL ->
  exists n,
    w_polls (world (run env fuel)) = n /\
    w_names (world (run env fuel)) = 6%nat /\
    filter is_draw_call (calls (run env fuel)) = repeat the_draw n /\
    filter is_swap_call (calls (run env fuel)) =
      repeat (glfwSwapBuffers (env_window env)) n /\
    filter is_poll_call (calls (run env fuel)) = repeat glfwPollEvents n /\
    filter is_viewport_call (calls (run env fuel)) =
      resize_calls (flat_map (env_events env) (seq 0 n)).
Proof.
  intros Hw.
  destruct (main_setup_world env initial_world Hw)
    as (_ & _ & Hp0 & _ & Hn0 & Hf0).
  cbv zeta in Hp0, Hn0, Hf0.
  destruct (render_loop_counts env (setup_locals env initial_world) fuel
              (world (main_setup env initial_world)) Hf0)
    as (n & Hp & Hn & Hd & Hs & Hq & Hv).
  rewrite Hp0 in Hp, Hv. rewrite Hn0 in Hn. cbn [Nat.add] in Hp, Hn.
  assert (S1 : filter is_draw_call (calls (main_setup env initial_world))
               = []).
  { rewrite (setup_filter is_draw_call env initial_world);
      [reflexivity| |exact Hw]. intros []; simpl; congruence. }
  assert (S2 : filter is_swap_call (calls (main_setup env initial_world))
               = []).
  { rewrite (setup_filter is_swap_call env initial_world);
      [reflexivity| |exact Hw]. intros []; simpl; congruence. }
  assert (S3 : filter is_poll_call (calls (main_setup env initial_world))
               = []).
  { rewrite (setup_filter is_poll_call env initial_world);
      [reflexivity| |exact Hw]. intros []; simpl; congruence. }
  assert (S4 : filter is_viewport_call
                 (calls (main_setup env initial_world)) = []).
  { rewrite (setup_filter is_viewport_call env initial_world);
      [reflexivity| |exact Hw]. intros []; simpl; congruence. }
  exists n.
  rewrite (run_unfold env fuel Hw). cbv zeta.
  destruct (value (render_loop env fuel _ _));
    cbn [world calls]; rewrite !filter_app, S1, S2, S3, S4, Hd, Hs, Hq, Hv;
    cbn [filter teardown_calls is_draw_call is_swap_call is_poll_call
         is_viewport_call app]; rewrite ?app_nil_r;
    repeat split; assumption.
Qed.



(** X9. The program sets the viewport when it is told of a resize, and
    at no other time: the [glViewport] calls of a run with a window are,
    in order, one call (0, 0, width, height) for each resize
    notification that the polls answered so far have delivered. In
    particular it sets no viewport of its own before the first
    notification. *)
Theorem viewport_follows_resizes (env : Env) (fuel : nat) :
  env_window env <> NULL ->
  filter is_viewport_call (calls (run env fuel)) =
    resize_calls
      (flat_map (env_events env) (seq 0 (w_polls (world (run env fuel))))).
Proof.
  intros Hw.
  destruct (run_counts env fuel Hw) as (n & Hp & _ & _ & _ & _ & Hv).
  rewrite Hp. exact Hv.
Qed.

Lemma viewport_follows_resizes_witness :
  env_window env_resized <> NULL /\
  filter is_viewport_call (calls (run env_resized 9)) =
    [glViewport 0 0 1024 768; glViewport 0 0 640 480].
Proof.
  assert (Hw : env_window env_resized <> NULL) by (vm_compute; discriminate).
  split; [exact Hw|].
  rewrite (viewport_follows_resizes env_resized 9 Hw).
  vm_compute. reflexivity.
Defined.

(** ** Objects handed out and given back *)





(** ** What the draw calls read *)












(** ** Asking the window to close *)






(** ** The attribute location *)


